(** * mousebender.simple: the Simple Repository API (PEP 503, 592, 629, 658)

    A shallow embedding of [mousebender/simple.py] and of the parts of the
    Python standard library it calls, followed by the properties of the
    project-URL builder, the index parser and the archive-link parser.

    Conventions of the embedding.
    - A Python [str] is a Rocq [string]; a non-ASCII character is held as
      its UTF-8 bytes.
    - [html.parser.HTMLParser.feed] is represented by the sequence of
      handler calls it makes ([html_event]); a document is the list of its
      events, in document order.
    - A Python exception is the [Raise] case of [result].
    - [str.lower], [bytes.decode], [html.unescape] and the two validations
      of a URL authority that rely on [ipaddress] and [unicodedata] are
      taken as an interface ([PyStdlib]), with the laws the proofs use;
      everything else is defined here and computes. *)

From stdpp Require Import gmap strings.
From Stdlib Require Import Ascii.

(** ** Exceptions *)

Inductive exn := ValueError | AssertionError.

Inductive result (A : Type) :=
| Ok (a : A)
| Raise (e : exn).
Arguments Ok {A} a.
Arguments Raise {A} e.

(** [result] is a monad in stdpp's sense: [x ← r; k] runs [k] on the value
    of [r] and propagates an exception of [r]. *)
#[global] Instance result_ret : MRet result := fun A a => Ok a.
#[global] Instance result_bind : MBind result := fun A B k r =>
  match r with
  | Ok a => k a
  | Raise e => Raise e
  end.

Definition raises {A} (r : result A) : Prop := exists e, r = Raise e.

(** ** Python [str] methods *)

Module PyStr.

Definition code (c : ascii) : nat := nat_of_ascii c.

Definition is_upper (c : ascii) : bool := (65 <=? code c) && (code c <=? 90).
Definition is_lower (c : ascii) : bool := (97 <=? code c) && (code c <=? 122).
Definition is_digit (c : ascii) : bool := (48 <=? code c) && (code c <=? 57).
Definition is_ascii (c : ascii) : bool := code c <? 128.
Definition is_alpha (c : ascii) : bool := is_upper c || is_lower c.

Definition lower_ascii (c : ascii) : ascii :=
  if is_upper c then ascii_of_nat (code c + 32) else c.

(** The ASCII case mapping: what [s.lower()] is when [s.isascii()]. *)
Fixpoint ascii_lower (s : string) : string :=
  match s with
  | EmptyString => EmptyString
  | String c s' => String (lower_ascii c) (ascii_lower s')
  end.

(** [bool(s)]: a string is true when it is not empty. *)
Definition truthy (s : string) : bool :=
  match s with
  | EmptyString => false
  | String _ _ => true
  end.

(** [c in s] *)
Fixpoint contains (c : ascii) (s : string) : bool :=
  match s with
  | EmptyString => false
  | String d s' => if Ascii.eqb d c then true else contains c s'
  end.

(** [s.isascii()] *)
Fixpoint isascii (s : string) : bool :=
  match s with
  | EmptyString => true
  | String c s' => is_ascii c && isascii s'
  end.

(** [s.partition(c)]: split at the first [c]; when there is none the
    result is [(s, "", "")]. *)
Fixpoint partition (c : ascii) (s : string) : string * string * string :=
  match s with
  | EmptyString => (EmptyString, EmptyString, EmptyString)
  | String d s' =>
      if Ascii.eqb d c then (EmptyString, String c EmptyString, s')
      else let '(a, sep, b) := partition c s' in (String d a, sep, b)
  end.

(** [s.rpartition(c)]: split at the last [c]; when there is none the
    result is [("", "", s)]. *)
Fixpoint rpartition (c : ascii) (s : string) : string * string * string :=
  match s with
  | EmptyString => (EmptyString, EmptyString, EmptyString)
  | String d s' =>
      let '(a, sep, b) := rpartition c s' in
      if truthy sep then (String d a, sep, b)
      else if Ascii.eqb d c then (EmptyString, String c EmptyString, s')
      else (EmptyString, EmptyString, String d b)
  end.

(** [s.split(c, 1)]: one element when [c] does not occur, two otherwise. *)
Definition split1 (c : ascii) (s : string) : list string :=
  let '(a, sep, b) := partition c s in
  if truthy sep then [a; b] else [a].

(** [s.endswith(c)] *)
Fixpoint endswith (c : ascii) (s : string) : bool :=
  match s with
  | EmptyString => false
  | String d EmptyString => Ascii.eqb d c
  | String _ s' => endswith c s'
  end.

(** [s[:2] == "//"] and [s[:1] == "/"] *)
Definition starts_slash_slash (s : string) : bool :=
  match s with
  | String a (String b _) => Ascii.eqb a "/" && Ascii.eqb b "/"
  | _ => false
  end.

Definition starts_with (c : ascii) (s : string) : bool :=
  match s with
  | String a _ => Ascii.eqb a c
  | EmptyString => false
  end.

(** [s.replace(c, "")] *)
Fixpoint remove (c : ascii) (s : string) : string :=
  match s with
  | EmptyString => EmptyString
  | String d s' => if Ascii.eqb d c then remove c s' else String d (remove c s')
  end.

(** [s.lstrip(chars)] for a set of characters given as a predicate. *)
Fixpoint lstrip (p : ascii -> bool) (s : string) : string :=
  match s with
  | EmptyString => EmptyString
  | String c s' => if p c then lstrip p s' else s
  end.

(** Every character of [s] satisfies [p]. *)
Fixpoint all (p : ascii -> bool) (s : string) : bool :=
  match s with
  | EmptyString => true
  | String c s' => p c && all p s'
  end.

Definition eqb (s t : string) : bool := bool_decide (s = t).

End PyStr.

(** ** The separators of project names

    [_canonicalize_regex = re.compile(r"[-_.]+")] of [packaging.utils]. *)

Definition is_name_separator (c : ascii) : bool :=
  Ascii.eqb c "-" || Ascii.eqb c "_" || Ascii.eqb c ".".

(** [re.sub(r"[-_.]+", "-", s)]: every maximal run of separators becomes
    one ["-"].  [in_run] tells that the previous character was a separator,
    whose ["-"] has been emitted already. *)
Fixpoint sub_separator_runs (in_run : bool) (s : string) : string :=
  match s with
  | EmptyString => EmptyString
  | String c s' =>
      if is_name_separator c
      then if in_run then sub_separator_runs true s'
           else String "-" (sub_separator_runs true s')
      else String c (sub_separator_runs false s')
  end.

(** Where the separators of a string are: each separator, and [None] for
    each maximal run of other characters.  [in_word] tells that the
    previous character was not a separator. *)
Fixpoint shape (in_word : bool) (s : string) : list (option ascii) :=
  match s with
  | EmptyString => []
  | String c s' =>
      if is_name_separator c then Some c :: shape false s'
      else if in_word then shape true s'
      else None :: shape true s'
  end.

(** ** The standard-library interface

    Five functions of the standard library are not embedded: their
    results depend on the Unicode database, on tables
    ([html.entities.html5]) or on the [ipaddress] module.
    - [lower] is [str.lower].  It is the ASCII mapping on ASCII strings, it
      is idempotent, and it keeps the separators ["-"], ["_"] and ["."]
      where they are: a separator is its own lower case, and a character
      that is not one becomes one or more characters that are not;
    - [utf8_decode] is [bytes.decode("utf-8", "replace")], which gives
      at least one character for every byte it reads;
    - [unescape] is [html.unescape];
    - [bracketed_host_valid h] tells that [_check_bracketed_host h] of
      [urllib.parse] returns, rather than raising [ValueError];
    - [nfkc_netloc_valid n] tells the same of the part of [_checknetloc]
      that normalises a non-ASCII authority. *)

Class PyStdlib := {
  lower : string -> string;
  utf8_decode : string -> string;
  unescape : string -> string;
  bracketed_host_valid : string -> bool;
  nfkc_netloc_valid : string -> bool;
  lower_on_ascii : forall s,
    PyStr.isascii s = true -> lower s = PyStr.ascii_lower s;
  lower_lower : forall s, lower (lower s) = lower s;
  lower_shape : forall s, shape false (lower s) = shape false s;
  utf8_decode_nonempty : forall b, utf8_decode b = EmptyString -> b = EmptyString
}.

(** ** [packaging.utils.canonicalize_name]

    [canonicalize_name(name) = _canonicalize_regex.sub("-", name).lower()]. *)

Definition canonicalize_name `{PyStdlib} (name : string) : string :=
  lower (sub_separator_runs false name).

(** ** [create_project_url] *)

Definition create_project_url `{PyStdlib} (base_url project_name : string)
  : string :=
  let base_url :=
    if PyStr.truthy base_url && negb (PyStr.endswith "/" base_url)
    then base_url +:+ "/"
    else base_url in
  base_url +:+ canonicalize_name project_name +:+ "/".

(** ** [urllib.parse]

    [urlparse], [urlunparse] and [unquote] as CPython 3.11 defines them
    ([Lib/urllib/parse.py]), for [str] arguments and the default values of
    [scheme] and [allow_fragments]. *)

Module UrlParse.

Record ParseResult := {
  scheme : string;
  netloc : string;
  path : string;
  params : string;
  query : string;
  fragment : string
}.

Definition uses_netloc : list string :=
  [""; "ftp"; "http"; "gopher"; "nntp"; "telnet";
   "imap"; "wais"; "file"; "mms"; "https"; "shttp";
   "snews"; "prospero"; "rtsp"; "rtspu"; "rsync";
   "svn"; "svn+ssh"; "sftp"; "nfs"; "git"; "git+ssh";
   "ws"; "wss"].

Definition uses_params : list string :=
  [""; "ftp"; "hdl"; "prospero"; "http"; "imap";
   "https"; "shttp"; "rtsp"; "rtspu"; "sip"; "sips";
   "mms"; "sftp"; "tel"].

(** [c in scheme_chars]: letters, digits and ["+-."]. *)
Definition scheme_char (c : ascii) : bool :=
  PyStr.is_lower c || PyStr.is_upper c || PyStr.is_digit c
  || Ascii.eqb c "+" || Ascii.eqb c "-" || Ascii.eqb c ".".

(** [c in _WHATWG_C0_CONTROL_OR_SPACE]: the codes 0 to 32. *)
Definition c0_control_or_space (c : ascii) : bool := PyStr.code c <=? 32.

(** [for b in _UNSAFE_URL_BYTES_TO_REMOVE: url = url.replace(b, "")] *)
Definition remove_unsafe (url : string) : string :=
  PyStr.remove "010" (PyStr.remove "013" (PyStr.remove "009" url)).

(** [_splitnetloc(url, 0)]: the authority ends before the first of
    ["/"], ["?"] and ["#"]. *)
Fixpoint split_at_delim (url : string) : string * string :=
  match url with
  | EmptyString => (EmptyString, EmptyString)
  | String c s' =>
      if Ascii.eqb c "/" || Ascii.eqb c "?" || Ascii.eqb c "#"
      then (EmptyString, url)
      else let '(a, b) := split_at_delim s' in (String c a, b)
  end.

(** [_splitnetloc(url, 2)], called when [url[:2] == "//"]. *)
Definition _splitnetloc (url : string) : string * string :=
  match url with
  | String _ (String _ rest) => split_at_delim rest
  | _ => (EmptyString, EmptyString)
  end.

Section WithStdlib.
Context `{PyStdlib}.

(** The scheme test of [urlsplit]: with [i = url.find(':')], the scheme
    is [url[:i].lower()] when [i > 0], [url[0]] is an ASCII letter and
    every character of [url[:i]] is a scheme character. *)
Definition split_scheme (url : string) : string * string :=
  let '(before, sep, after) := PyStr.partition ":" url in
  match before with
  | String c0 _ =>
      if PyStr.truthy sep && PyStr.is_ascii c0 && PyStr.is_alpha c0
         && PyStr.all scheme_char before
      then (lower before, after)
      else (EmptyString, url)
  | EmptyString => (EmptyString, url)
  end.

(** [_check_bracketed_netloc]: [Ok] when it returns. *)
Definition _check_bracketed_netloc (netloc : string) : result unit :=
  let hostname_and_port := (PyStr.rpartition "@" netloc).2 in
  let '(before_bracket, have_open_br, bracketed) :=
    PyStr.partition "[" hostname_and_port in
  if PyStr.truthy have_open_br then
    if PyStr.truthy before_bracket then Raise ValueError
    else
      let '(hostname, _, port) := PyStr.partition "]" bracketed in
      if PyStr.truthy port && negb (PyStr.starts_with ":" port)
      then Raise ValueError
      else if bracketed_host_valid hostname then Ok tt else Raise ValueError
  else
    let '(hostname, _, port) := PyStr.partition ":" hostname_and_port in
    if bracketed_host_valid hostname then Ok tt else Raise ValueError.

(** [_checknetloc] *)
Definition _checknetloc (netloc : string) : result unit :=
  if negb (PyStr.truthy netloc) || PyStr.isascii netloc then Ok tt
  else if nfkc_netloc_valid netloc then Ok tt else Raise ValueError.

(** [urlsplit(url)] with the default [scheme=''] and
    [allow_fragments=True]; the result is
    [(scheme, netloc, path, query, fragment)]. *)
Definition urlsplit (url : string)
  : result (string * string * string * string * string) :=
  let url := PyStr.lstrip c0_control_or_space url in
  let url := remove_unsafe url in
  let '(scheme, url) := split_scheme url in
  '(netloc, url) ←
    (if PyStr.starts_slash_slash url then
       let '(netloc, url) := _splitnetloc url in
       if (PyStr.contains "[" netloc && negb (PyStr.contains "]" netloc))
          || (PyStr.contains "]" netloc && negb (PyStr.contains "[" netloc))
       then Raise ValueError
       else
         _ ← (if PyStr.contains "[" netloc && PyStr.contains "]" netloc
              then _check_bracketed_netloc netloc else Ok tt);
         Ok (netloc, url)
     else Ok (EmptyString, url));
  let '(url, fragment) :=
    if PyStr.contains "#" url
    then let '(a, _, b) := PyStr.partition "#" url in (a, b)
    else (url, EmptyString) in
  let '(url, query) :=
    if PyStr.contains "?" url
    then let '(a, _, b) := PyStr.partition "?" url in (a, b)
    else (url, EmptyString) in
  _ ← _checknetloc netloc;
  Ok (scheme, netloc, url, query, fragment).

(** [_splitparams(url)], called when [';' in url]. *)
Definition _splitparams (url : string) : string * string :=
  if PyStr.contains "/" url then
    let '(dir, _, last) := PyStr.rpartition "/" url in
    if PyStr.contains ";" last
    then let '(a, _, b) := PyStr.partition ";" last in
         (dir +:+ "/" +:+ a, b)
    else (url, EmptyString)
  else
    let '(a, _, b) := PyStr.partition ";" url in (a, b).

(** [urlparse(url)] *)
Definition urlparse (url : string) : result ParseResult :=
  '(scheme, netloc, url, query, fragment) ← urlsplit url;
  let '(url, params) :=
    if bool_decide (scheme ∈ uses_params) && PyStr.contains ";" url
    then _splitparams url
    else (url, EmptyString) in
  Ok {| scheme := scheme; netloc := netloc; path := url;
        params := params; query := query; fragment := fragment |}.

End WithStdlib.

(** [urlunsplit((scheme, netloc, url, query, fragment))] *)
Definition urlunsplit (scheme netloc url query fragment : string) : string :=
  let url :=
    if PyStr.truthy netloc
       || (PyStr.truthy scheme && bool_decide (scheme ∈ uses_netloc)
           && negb (PyStr.starts_slash_slash url))
    then
      let url :=
        if PyStr.truthy url && negb (PyStr.starts_with "/" url)
        then "/" +:+ url else url in
      "//" +:+ netloc +:+ url
    else url in
  let url := if PyStr.truthy scheme then scheme +:+ ":" +:+ url else url in
  let url := if PyStr.truthy query then url +:+ "?" +:+ query else url in
  let url := if PyStr.truthy fragment then url +:+ "#" +:+ fragment else url in
  url.

(** [urlunparse((scheme, netloc, url, params, query, fragment))] *)
Definition urlunparse (scheme netloc url params query fragment : string)
  : string :=
  let url := if PyStr.truthy params then url +:+ ";" +:+ params else url in
  urlunsplit scheme netloc url query fragment.

(** [_hexdig = '0123456789ABCDEFabcdef'] and the value of a digit. *)
Definition hex_value (c : ascii) : option nat :=
  let n := PyStr.code c in
  if PyStr.is_digit c then Some (n - 48)
  else if (65 <=? n) && (n <=? 70) then Some (n - 55)
  else if (97 <=? n) && (n <=? 102) then Some (n - 87)
  else None.

(** [unquote_to_bytes(string)]: every ["%xy"] with two hexadecimal digits
    becomes the byte it denotes; any other ["%"] is kept. *)
Fixpoint unquote_to_bytes (s : string) : string :=
  match s with
  | EmptyString => EmptyString
  | String c s' =>
      if Ascii.eqb c "%" then
        match s' with
        | String h1 (String h2 s'') =>
            match hex_value h1, hex_value h2 with
            | Some a, Some b =>
                String (ascii_of_nat (16 * a + b)) (unquote_to_bytes s'')
            | _, _ => String c (unquote_to_bytes s')
            end
        | _ => String c (unquote_to_bytes s')
        end
      else String c (unquote_to_bytes s')
  end.

Section Unquote.
Context `{PyStdlib}.

(** [unquote_to_bytes(bits[i]).decode(encoding, errors)] for a run of
    ASCII characters, which the regular expression makes not empty. *)
Definition decode_run (run : string) : string :=
  if PyStr.truthy run then utf8_decode (unquote_to_bytes run)
  else EmptyString.

(** The loop of [unquote] over [_asciire.split(string)]: every maximal run
    of ASCII characters is unquoted and decoded, the characters between the
    runs are kept.  [run] is the run read so far. *)
Fixpoint unquote_runs (run s : string) : string :=
  match s with
  | EmptyString => decode_run run
  | String c s' =>
      if PyStr.is_ascii c
      then unquote_runs (run +:+ String c EmptyString) s'
      else decode_run run +:+ String c (unquote_runs EmptyString s')
  end.

(** [unquote(string)], with its early return for a string without
    ["%"]. *)
Definition unquote (s : string) : string :=
  if PyStr.contains "%" s then unquote_runs EmptyString s else s.

End Unquote.

End UrlParse.

(** ** The calls made by [html.parser.HTMLParser.feed]

    [feed] calls [handle_starttag(tag, attrs)], [handle_endtag(tag)] and
    [handle_data(data)] in document order ([handle_startendtag] calls the
    first two).  An attribute without a value has the value [None]. *)

Inductive html_event :=
| StartTag (tag : string) (attrs_list : list (string * option string))
| EndTag (tag : string)
| Data (data : string).

(** [dict(attrs_list)]: a later pair replaces an earlier one with the same
    key. *)
Definition dict (attrs_list : list (string * option string))
  : gmap string (option string) :=
  foldl (fun d kv => <[kv.1 := kv.2]> d) ∅ attrs_list.

(** The truth value of [attrs.get(key)]: the value when the attribute is
    there with a value that is not empty. *)
Definition get_truthy (attrs : gmap string (option string)) (key : string)
  : option string :=
  match attrs !! key with
  | Some (Some v) => if PyStr.truthy v then Some v else None
  | _ => None
  end.

(** ** [_SimpleIndexHTMLParser] *)

Module SimpleIndexHTMLParser.

Record parser := {
  _parsing_anchor : bool;
  names : list string
}.

Definition __init__ : parser :=
  {| _parsing_anchor := false; names := [] |}.

Definition handle_starttag (self : parser) (tag : string)
    (_attrs_list : list (string * option string)) : parser :=
  if negb (PyStr.eqb tag "a") then self
  else {| _parsing_anchor := true; names := names self |}.

Definition handle_endtag (self : parser) (tag : string) : parser :=
  if negb (PyStr.eqb tag "a") then self
  else {| _parsing_anchor := false; names := names self |}.

Definition handle_data (self : parser) (data : string) : parser :=
  if _parsing_anchor self
  then {| _parsing_anchor := _parsing_anchor self;
          names := names self ++ [data] |}
  else self.

Definition handle (self : parser) (ev : html_event) : parser :=
  match ev with
  | StartTag tag attrs_list => handle_starttag self tag attrs_list
  | EndTag tag => handle_endtag self tag
  | Data data => handle_data self data
  end.

Definition feed (self : parser) (html : list html_event) : parser :=
  foldl handle self html.

End SimpleIndexHTMLParser.

Record ProjectIndex_1_0 := {
  index_api_version : string;
  projects : list string
}.

(** [from_project_index_html]; an entry [{"name": name}] of ["projects"]
    is represented by [name]. *)
Definition from_project_index_html (html : list html_event) : ProjectIndex_1_0 :=
  let parser := SimpleIndexHTMLParser.feed SimpleIndexHTMLParser.__init__ html in
  {| index_api_version := "1.0";
     projects := SimpleIndexHTMLParser.names parser |}.

(** ** [_ArchiveLinkHTMLParser] *)

(** [Union[bool, str]], the type of ["yanked"]. *)
Inductive bool_or_str :=
| PyBool (b : bool)
| PyStr_ (s : string).

(** [Union[bool, _HashesDict]], the type of ["dist-info-metadata"]. *)
Inductive bool_or_hashes :=
| MetaBool (b : bool)
| MetaHashes (h : gmap string string).

(** The dictionary [args] built for one anchor: ["filename"] and ["url"]
    are always set, every other key may be missing. *)
Record archive_link := {
  al_filename : string;
  al_url : string;
  al_hashes : option (string * string);
  al_requires_python : option string;
  al_gpg_sig : option bool;
  al_yanked : option bool_or_str;
  al_metadata : option (string * string)
}.

Module ArchiveLinkHTMLParser.
Section WithStdlib.
Context `{PyStdlib}.

(** The body of [handle_starttag] after the two early returns:
    [Ok args] is the dictionary appended to [archive_links]. *)
Definition archive_link_of (attrs : gmap string (option string))
    (full_url : string) : result archive_link :=
  parsed_url ← UrlParse.urlparse full_url;
  let '(_, _, raw_filename) :=
    PyStr.rpartition "/" (UrlParse.path parsed_url) in
  let filename := UrlParse.unquote raw_filename in
  let url :=
    UrlParse.urlunparse
      (UrlParse.scheme parsed_url) (UrlParse.netloc parsed_url)
      (UrlParse.path parsed_url) (UrlParse.params parsed_url)
      (UrlParse.query parsed_url) "" in
  hashes ←
    (if PyStr.truthy (UrlParse.fragment parsed_url) then
       match PyStr.split1 "=" (UrlParse.fragment parsed_url) with
       | [hash_algo; hash_value] =>
           Ok (Some (lower hash_algo, hash_value))
       | _ => Raise ValueError
       end
     else Ok None);
  let requires_python :=
    unescape <$> get_truthy attrs "data-requires-python" in
  let gpg_sig :=
    (fun v => bool_decide (v = Some "true")) <$> attrs !! "data-gpg-sig" in
  let yanked :=
    (fun _ => match get_truthy attrs "data-yanked" with
              | Some v => PyStr_ v
              | None => PyBool true
              end) <$> attrs !! "data-yanked" in
  let metadata :=
    (fun _ =>
       match get_truthy attrs "data-dist-info-metadata" with
       | Some found_metadata =>
           if negb (PyStr.eqb found_metadata "true") then
             let '(algorithm, _, hash_) :=
               PyStr.partition "=" found_metadata in
             (lower algorithm, hash_)
           else (EmptyString, EmptyString)
       | None => (EmptyString, EmptyString)
       end) <$> attrs !! "data-dist-info-metadata" in
  Ok {| al_filename := filename; al_url := url; al_hashes := hashes;
        al_requires_python := requires_python; al_gpg_sig := gpg_sig;
        al_yanked := yanked; al_metadata := metadata |}.

(** [handle_starttag]; the parser's state is [self.archive_links]. *)
Definition handle_starttag (archive_links : list archive_link)
    (tag : string) (attrs_list : list (string * option string))
  : result (list archive_link) :=
  let attrs := dict attrs_list in
  if negb (PyStr.eqb tag "a") then Ok archive_links
  else
    match get_truthy attrs "href" with
    | None => Ok archive_links
    | Some full_url =>
        args ← archive_link_of attrs full_url;
        Ok (archive_links ++ [args])
    end.

(** [handle_endtag] and [handle_data] are inherited and do nothing. *)
Definition handle (archive_links : list archive_link) (ev : html_event)
  : result (list archive_link) :=
  match ev with
  | StartTag tag attrs_list => handle_starttag archive_links tag attrs_list
  | EndTag _ | Data _ => Ok archive_links
  end.

Fixpoint feed (archive_links : list archive_link) (html : list html_event)
  : result (list archive_link) :=
  match html with
  | [] => Ok archive_links
  | ev :: html' =>
      archive_links' ← handle archive_links ev;
      feed archive_links' html'
  end.

End WithStdlib.
End ArchiveLinkHTMLParser.

Record ProjectFileDetails_1_0 := {
  filename : string;
  url : string;
  hashes : gmap string string;
  requires_python : option string;
  dist_info_metadata : option bool_or_hashes;
  gpg_sig : option bool;
  yanked : option bool_or_str
}.

Record ProjectDetails_1_0 := {
  details_api_version : string;
  name : string;
  files : list ProjectFileDetails_1_0
}.

(** The body of the loop of [from_project_details_html]. *)
Definition file_details (archive_link : archive_link) : ProjectFileDetails_1_0 :=
  {| filename := al_filename archive_link;
     url := al_url archive_link;
     hashes :=
       match al_hashes archive_link with
       | Some (algo, value) => {[ algo := value ]}
       | None => ∅
       end;
     dist_info_metadata :=
       (fun '(algorithm, value) =>
          if PyStr.truthy algorithm
          then MetaHashes {[ algorithm := value ]}
          else MetaBool true) <$> al_metadata archive_link;
     requires_python := al_requires_python archive_link;
     yanked := al_yanked archive_link;
     gpg_sig := al_gpg_sig archive_link |}.

Section WithStdlib.
Context `{PyStdlib}.

Definition from_project_details_html (name : string) (html : list html_event)
  : result ProjectDetails_1_0 :=
  archive_links ← ArchiveLinkHTMLParser.feed [] html;
  Ok {| details_api_version := "1.0";
        name := canonicalize_name name;
        files := file_details <$> archive_links |}.

(** [HTMLParser.feed] calls the handlers while it reads the page, and it
    does not read every page to the end: at a marked section that it does
    not know, such as [<![foo[ x ]]>], it raises [AssertionError].  The
    handler calls for the text before have then been made, so that an
    exception of theirs comes first.  [from_project_details_html] above is
    the function on the handler calls of a page that is read to the end;
    here [reaches_end] tells whether the page is. *)
Definition from_project_details_html_upto
    (name : string) (html : list html_event) (reaches_end : bool)
  : result ProjectDetails_1_0 :=
  if reaches_end then from_project_details_html name html
  else _ ← ArchiveLinkHTMLParser.feed [] html; Raise AssertionError.

End WithStdlib.

(** ** A sample project page

    One file link with every optional attribute, between markup that is
    not a file link. *)

Module Sample.

Definition href : string := "../../packages/foo-1.0.tar.gz#sha256=abc123".

Definition attrs_list : list (string * option string) :=
  [("href", Some href);
   ("data-requires-python", Some "&gt;=3.7");
   ("data-gpg-sig", Some "true");
   ("data-yanked", Some "CVE-2021-1234");
   ("data-dist-info-metadata", Some "sha256=deadbeef")].

Definition html : list html_event :=
  [StartTag "body" []; StartTag "h1" []; Data "Links for foo"; EndTag "h1";
   StartTag "a" attrs_list; Data "foo-1.0.tar.gz"; EndTag "a";
   StartTag "br" []; EndTag "br";
   StartTag "a" [("name", Some "end"); ("data-yanked", None)]; EndTag "a";
   EndTag "body"].

Definition parsed_href : UrlParse.ParseResult :=
  {| UrlParse.scheme := ""; UrlParse.netloc := "";
     UrlParse.path := "../../packages/foo-1.0.tar.gz";
     UrlParse.params := ""; UrlParse.query := "";
     UrlParse.fragment := "sha256=abc123" |}.

Definition file : ProjectFileDetails_1_0 :=
  {| filename := "foo-1.0.tar.gz";
     url := "../../packages/foo-1.0.tar.gz";
     hashes := {[ "sha256" := "abc123" ]};
     requires_python := Some ">=3.7";
     dist_info_metadata := Some (MetaHashes {[ "sha256" := "deadbeef" ]});
     gpg_sig := Some true;
     yanked := Some (PyStr_ "CVE-2021-1234") |}.

Definition details : ProjectDetails_1_0 :=
  {| details_api_version := "1.0"; name := "foo-bar"; files := [file] |}.

End Sample.

(** ** Vocabulary of the properties *)

(** An anchor is accepted when it is a start tag [a] whose [href] has a
    value that is not empty; it is then described by its attributes and
    that value. *)
Definition accepted_anchor (ev : html_event)
  : option (gmap string (option string) * string) :=
  match ev with
  | StartTag tag attrs_list =>
      if PyStr.eqb tag "a"
      then (fun href => (dict attrs_list, href))
             <$> get_truthy (dict attrs_list) "href"
      else None
  | EndTag _ | Data _ => None
  end.

(** The accepted anchors of a document, in document order. *)
Definition accepted_anchors (html : list html_event)
  : list (gmap string (option string) * string) :=
  omap accepted_anchor html.

(** The text of an [href] before its first ["#"]: the [href] with its
    fragment removed. *)
Definition strip_fragment (href : string) : string :=
  (PyStr.partition "#" href).1.1.

(** What follows that text: nothing, or ["#"] and a fragment. *)
Definition fragment_part (tail : string) : Prop :=
  tail = "" \/ exists frag, tail = String "#" frag.

(** A reference that [urlsplit] leaves as it is: it does not begin with a
    control character or a space, and has no tab, carriage return or line
    feed. *)
Definition unstripped (s : string) : bool :=
  match s with
  | EmptyString => true
  | String c _ => negb (UrlParse.c0_control_or_space c)
  end.

Definition no_unsafe (s : string) : bool :=
  negb (PyStr.contains "009" s) && negb (PyStr.contains "013" s)
  && negb (PyStr.contains "010" s).

(** A relative reference made of a path only: no scheme, authority,
    parameters or query. *)
Definition path_only (s : string) : bool :=
  unstripped s && no_unsafe s
  && negb (PyStr.contains ":" s) && negb (PyStr.contains ";" s)
  && negb (PyStr.contains "?" s) && negb (PyStr.starts_slash_slash s).

(** An absolute URL [scheme://host/path] written the way [urlunparse]
    writes it: a scheme in lower case, a host that is not empty, made of
    printable ASCII characters other than ["/"], ["?"], ["#"], ["["] and
    ["]"], and a path that is empty or begins with ["/"], without
    parameters or query. *)
Definition lower_scheme_char (c : ascii) : bool :=
  PyStr.is_lower c || PyStr.is_digit c
  || Ascii.eqb c "+" || Ascii.eqb c "-" || Ascii.eqb c ".".

Definition host_char (c : ascii) : bool :=
  (32 <? PyStr.code c) && PyStr.is_ascii c
  && negb (Ascii.eqb c "/" || Ascii.eqb c "?" || Ascii.eqb c "#"
           || Ascii.eqb c "[" || Ascii.eqb c "]").

Definition absolute_url (scheme host path : string) : bool :=
  match scheme with
  | String c0 _ => PyStr.is_lower c0
  | EmptyString => false
  end
  && PyStr.all lower_scheme_char scheme
  && PyStr.truthy host && PyStr.all host_char host
  && (negb (PyStr.truthy path) || PyStr.starts_with "/" path)
  && no_unsafe path
  && negb (PyStr.contains ";" path) && negb (PyStr.contains "?" path).

(** A string ends with exactly one ["/"]. *)
Definition ends_with_one_slash (s : string) : Prop :=
  exists s0, s = s0 +:+ "/" /\ PyStr.endswith "/" s0 = false.

(** Index pages whose anchors have no attribute and hold text only: a page
    is a sequence of such anchors, each with the texts that [handle_data]
    receives inside it (none, one or several), and of events outside them,
    which are text, or tags other than [a]. *)
Inductive index_item :=
| Anchor (chunks : list string)
| Outside (ev : html_event).

Definition outside_anchor (it : index_item) : bool :=
  match it with
  | Anchor _ | Outside (Data _) => true
  | Outside (StartTag tag _) | Outside (EndTag tag) => negb (PyStr.eqb tag "a")
  end.

Definition item_events (it : index_item) : list html_event :=
  match it with
  | Anchor chunks => StartTag "a" [] :: (Data <$> chunks) ++ [EndTag "a"]
  | Outside ev => [ev]
  end.

Definition index_page (items : list index_item) : list html_event :=
  concat (item_events <$> items).

Definition anchor_chunks (it : index_item) : list string :=
  match it with
  | Anchor chunks => chunks
  | Outside _ => []
  end.

(** An anchor whose text is received in one piece, and that text. *)
Definition one_chunk (it : index_item) : bool :=
  match it with
  | Anchor [_] | Outside _ => true
  | Anchor _ => false
  end.

Definition anchor_text (it : index_item) : option string :=
  match it with
  | Anchor [text] => Some text
  | Anchor _ | Outside _ => None
  end.

(** The texts of a page, in document order. *)
Definition data_text (ev : html_event) : option string :=
  match ev with
  | Data data => Some data
  | StartTag _ _ | EndTag _ => None
  end.

Definition data_texts (html : list html_event) : list string :=
  omap data_text html.

(** The start and end tags of anchors. *)
Definition is_anchor_tag (ev : html_event) : bool :=
  match ev with
  | StartTag tag _ | EndTag tag => PyStr.eqb tag "a"
  | Data _ => false
  end.

(** An event without its attributes. *)
Definition without_attrs (ev : html_event) : html_event :=
  match ev with
  | StartTag tag _ => StartTag tag []
  | EndTag _ | Data _ => ev
  end.

(** The separators of a shape are ["-"], none next to another.
    [after_sep] tells that the previous element was a separator. *)
Fixpoint single_dashes (after_sep : bool) (l : list (option ascii)) : bool :=
  match l with
  | [] => true
  | None :: l' => single_dashes false l'
  | Some c :: l' => negb after_sep && Ascii.eqb c "-" && single_dashes true l'
  end.


(** * Properties *)

(** ** Strings *)

Section StringFacts.

Lemma append_cons (c : ascii) (s t : string) :
  String c s +:+ t = String c (s +:+ t).
Proof. reflexivity. Qed.

Lemma append_empty_l (s : string) : "" +:+ s = s.
Proof. reflexivity. Qed.

Lemma append_empty_r (s : string) : s +:+ "" = s.
Proof.
  induction s as [|c s IH]; [done |]. by rewrite append_cons, IH.
Qed.

Lemma append_assoc (s t u : string) : (s +:+ t) +:+ u = s +:+ t +:+ u.
Proof.
  induction s as [|c s IH]; [done |]. by rewrite !append_cons, IH.
Qed.

Lemma length_append (s t : string) :
  String.length (s +:+ t) = String.length s + String.length t.
Proof.
  induction s as [|c s IH]; [done |]. rewrite append_cons. simpl. lia.
Qed.

Lemma append_inv_tail (s t u : string) : s +:+ u = t +:+ u -> s = t.
Proof.
  intros Heq.
  assert (Hlen : String.length s = String.length t).
  { apply (f_equal String.length) in Heq.
    rewrite !length_append in Heq. lia. }
  revert t Heq Hlen.
  induction s as [|c s IH]; intros [|d t] Heq Hlen; simpl in Hlen;
    try done.
  rewrite !append_cons in Heq.
  injection Heq as -> Heq. f_equal. apply IH; [done | lia].
Qed.

Lemma truthy_true (s : string) : PyStr.truthy s = true <-> s <> "".
Proof. destruct s; simpl; split; congruence. Qed.

Lemma truthy_false (s : string) : PyStr.truthy s = false <-> s = "".
Proof. destruct s; simpl; split; congruence. Qed.

Lemma endswith_append_char (c : ascii) (s : string) :
  PyStr.endswith c (s +:+ String c "") = true.
Proof.
  induction s as [|d s IH]; [apply Ascii.eqb_refl |].
  rewrite append_cons. simpl.
  destruct (s +:+ String c "") eqn:E; [by destruct s | done].
Qed.

Lemma lower_ascii_idem (c : ascii) :
  PyStr.lower_ascii (PyStr.lower_ascii c) = PyStr.lower_ascii c.
Proof. destruct c as [[] [] [] [] [] [] [] []]; reflexivity. Qed.

Lemma lower_ascii_separator (c : ascii) :
  is_name_separator (PyStr.lower_ascii c) = is_name_separator c.
Proof. destruct c as [[] [] [] [] [] [] [] []]; reflexivity. Qed.

Lemma ascii_lower_idem (s : string) :
  PyStr.ascii_lower (PyStr.ascii_lower s) = PyStr.ascii_lower s.
Proof.
  induction s as [|c s IH]; simpl; [done |].
  by rewrite lower_ascii_idem, IH.
Qed.

Lemma lower_ascii_of_separator (c : ascii) :
  is_name_separator c = true -> PyStr.lower_ascii c = c.
Proof. destruct c as [[] [] [] [] [] [] [] []]; by compute. Qed.

Lemma ascii_lower_shape (s : string) : forall in_word,
  shape in_word (PyStr.ascii_lower s) = shape in_word s.
Proof.
  induction s as [|c s IH]; intros in_word; [done |]. simpl.
  rewrite lower_ascii_separator, !IH.
  destruct (is_name_separator c) eqn:Hc; [|done].
  by rewrite lower_ascii_of_separator.
Qed.

Lemma partition_absent (c : ascii) (s : string) :
  PyStr.contains c s = false -> PyStr.partition c s = (s, "", "").
Proof.
  induction s as [|d s IH]; simpl; [done |].
  destruct (Ascii.eqb d c); [done |]. intros Hs. by rewrite IH.
Qed.

Lemma partition_first (c : ascii) (a b : string) :
  PyStr.contains c a = false ->
  PyStr.partition c (a +:+ String c b) = (a, String c "", b).
Proof.
  induction a as [|d a IH]; intros Ha.
  - rewrite append_empty_l. simpl. by rewrite Ascii.eqb_refl.
  - rewrite append_cons. simpl in *.
    destruct (Ascii.eqb d c); [done |]. by rewrite IH.
Qed.

Lemma partition_present (c : ascii) (s : string) :
  PyStr.contains c s = true ->
  exists a b, s = a +:+ String c b /\ PyStr.contains c a = false /\
              PyStr.partition c s = (a, String c "", b).
Proof.
  induction s as [|d s IH]; simpl; [done |].
  destruct (Ascii.eqb d c) eqn:Hd.
  - apply Ascii.eqb_eq in Hd as ->. intros _. by exists "", s.
  - intros (a & b & -> & Ha & Hp)%IH. exists (String d a), b.
    rewrite Hp. simpl. by rewrite Hd.
Qed.

Lemma split1_absent (c : ascii) (s : string) :
  PyStr.contains c s = false -> PyStr.split1 c s = [s].
Proof. intros Hs. unfold PyStr.split1. by rewrite partition_absent. Qed.

Lemma split1_first (c : ascii) (a b : string) :
  PyStr.contains c a = false -> PyStr.split1 c (a +:+ String c b) = [a; b].
Proof. intros Ha. unfold PyStr.split1. by rewrite partition_first. Qed.

End StringFacts.

(** ** An instance of the interface

    For evaluating examples on ASCII strings: [lower] is the ASCII
    mapping, [utf8_decode] keeps the bytes, [unescape] decodes the
    references [&lt;], [&gt;], [&amp;] and [&quot;], and both validations
    accept. *)

Fixpoint unescape_basic (s : string) : string :=
  match s with
  | EmptyString => EmptyString
  | String c s' =>
      let rest := String c (unescape_basic s') in
      if Ascii.eqb c "&" then
        match s' with
        | String "l" (String "t" (String ";" t)) => String "<" (unescape_basic t)
        | String "g" (String "t" (String ";" t)) => String ">" (unescape_basic t)
        | String "a" (String "m" (String "p" (String ";" t))) =>
            String "&" (unescape_basic t)
        | String "q" (String "u" (String "o" (String "t" (String ";" t)))) =>
            String "034" (unescape_basic t)
        | _ => rest
        end
      else rest
  end.

Definition basic_stdlib : PyStdlib :=
  {| lower := PyStr.ascii_lower;
     utf8_decode := fun b => b;
     unescape := unescape_basic;
     bracketed_host_valid := fun _ => true;
     nfkc_netloc_valid := fun _ => true;
     lower_on_ascii := fun s _ => eq_refl;
     lower_lower := ascii_lower_idem;
     lower_shape := fun s => ascii_lower_shape s false;
     utf8_decode_nonempty := fun b Hb => Hb |}.

(** ** Canonical names *)

Section CanonicalNames.
Context `{PyStdlib}.

Lemma single_dashes_weaken (l : list (option ascii)) :
  single_dashes true l = true -> single_dashes false l = true.
Proof. by destruct l as [|[c|] l]. Qed.

(** After the substitution every separator is a ["-"] on its own. *)
Lemma sub_separator_runs_shape (s : string) : forall in_run in_word,
  in_run && in_word = false ->
  single_dashes in_run (shape in_word (sub_separator_runs in_run s)) = true.
Proof.
  induction s as [|c s IH]; intros in_run in_word Hflags; [done |].
  simpl. destruct (is_name_separator c) eqn:Hc.
  - destruct in_run.
    + by apply IH.
    + simpl. by apply IH.
  - simpl. rewrite Hc. destruct in_word.
    + rewrite andb_true_r in Hflags. subst in_run. by apply IH.
    + simpl. by apply IH.
Qed.

(** A string whose separators are single ["-"] is left as it is. *)
Lemma sub_separator_runs_fixed (s : string) : forall in_run in_word,
  single_dashes in_run (shape in_word s) = true ->
  sub_separator_runs in_run s = s.
Proof.
  induction s as [|c s IH]; intros in_run in_word Hshape; [done |].
  simpl in *. destruct (is_name_separator c) eqn:Hc.
  - simpl in Hshape. destruct in_run; [done |]. simpl in Hshape.
    apply andb_true_iff in Hshape as [Hdash Hshape].
    apply Ascii.eqb_eq in Hdash as ->. f_equal. by eapply IH.
  - f_equal. destruct in_word.
    + apply (IH false true). destruct in_run; [|done].
      by apply single_dashes_weaken.
    + by apply (IH false true).
Qed.

Lemma shape_empty (s : string) : shape false s = [] -> s = "".
Proof. destruct s as [|c s]; [done |]. simpl. by destruct (is_name_separator c). Qed.

Lemma lower_empty (s : string) : lower s = "" <-> s = "".
Proof.
  split.
  - intros Hs. apply shape_empty. by rewrite <- lower_shape, Hs.
  - intros ->. by rewrite lower_on_ascii.
Qed.

Lemma lower_truthy (s : string) : PyStr.truthy (lower s) = PyStr.truthy s.
Proof.
  destruct (PyStr.truthy s) eqn:Hs.
  - apply truthy_true. rewrite lower_empty. by apply truthy_true.
  - apply truthy_false in Hs as ->. apply truthy_false. by apply lower_empty.
Qed.

Lemma sub_separator_runs_idem (b : bool) (s : string) :
  sub_separator_runs b (sub_separator_runs b s) = sub_separator_runs b s.
Proof.
  revert b. induction s as [|c s IH]; intros b; simpl; [done |].
  destruct (is_name_separator c) eqn:Hc.
  - destruct b; simpl; [apply IH | by rewrite IH].
  - simpl. rewrite Hc. by rewrite IH.
Qed.

Lemma canonicalize_name_idem (x : string) :
  canonicalize_name (canonicalize_name x) = canonicalize_name x.
Proof.
  unfold canonicalize_name.
  rewrite (sub_separator_runs_fixed (lower (sub_separator_runs false x))
             false false).
  - apply lower_lower.
  - rewrite lower_shape. by apply sub_separator_runs_shape.
Qed.

End CanonicalNames.

(** ** The result monad *)

Lemma bind_Ok {A B} (k : A -> result B) (a : A) : Ok a ≫= k = k a.
Proof. reflexivity. Qed.

Lemma bind_Raise {A B} (k : A -> result B) (e : exn) : Raise e ≫= k = Raise e.
Proof. reflexivity. Qed.

Lemma bind_Ok_inv {A B} (k : A -> result B) (r : result A) (b : B) :
  r ≫= k = Ok b -> exists a, r = Ok a /\ k a = Ok b.
Proof. destruct r as [a|e]; [by exists a | done]. Qed.

Lemma raises_bind_l {A B} (k : A -> result B) (r : result A) :
  raises r -> raises (r ≫= k).
Proof. intros [e ->]. by exists e. Qed.

(** ** The archive-link parser, event by event *)

Section ArchiveLinks.
Context `{PyStdlib}.
Import ArchiveLinkHTMLParser.

Lemma feed_app (acc : list archive_link) (h1 h2 : list html_event) :
  feed acc (h1 ++ h2) = feed acc h1 ≫= fun acc' => feed acc' h2.
Proof.
  revert acc. induction h1 as [|ev h1 IH]; intros acc; [done |].
  simpl. destruct (handle acc ev) as [acc'|e]; [apply IH | done].
Qed.

Lemma handle_starttag_skipped acc tag attrs_list :
  accepted_anchor (StartTag tag attrs_list) = None ->
  handle_starttag acc tag attrs_list = Ok acc.
Proof.
  unfold accepted_anchor, handle_starttag.
  destruct (PyStr.eqb tag "a"); [|done]. simpl.
  by destruct (get_truthy (dict attrs_list) "href").
Qed.

Lemma handle_starttag_accepted acc tag attrs_list attrs href :
  accepted_anchor (StartTag tag attrs_list) = Some (attrs, href) ->
  handle_starttag acc tag attrs_list
  = archive_link_of attrs href ≫= fun args => Ok (acc ++ [args]).
Proof.
  unfold accepted_anchor, handle_starttag.
  destruct (PyStr.eqb tag "a"); [|done]. simpl.
  destruct (get_truthy (dict attrs_list) "href"); [|done].
  simpl. by intros [= <- <-].
Qed.

(** What [feed] returns: its accumulator, followed by one dictionary per
    accepted anchor, in order. *)
Lemma feed_Ok_inv html : forall acc links,
  feed acc html = Ok links ->
  exists als,
    links = acc ++ als /\
    Forall2 (fun a al => archive_link_of a.1 a.2 = Ok al)
            (accepted_anchors html) als.
Proof.
  induction html as [|ev html IH]; intros acc links Hfeed.
  - injection Hfeed as <-. exists []. by rewrite app_nil_r.
  - simpl in Hfeed. apply bind_Ok_inv in Hfeed as (acc' & Hev & Hfeed).
    apply IH in Hfeed as (als & -> & Hals).
    unfold accepted_anchors. simpl.
    destruct (accepted_anchor ev) as [[attrs href]|] eqn:Hacc.
    + destruct ev as [tag attrs_list| |]; try done. simpl in Hev.
      rewrite (handle_starttag_accepted _ _ _ _ _ Hacc) in Hev.
      apply bind_Ok_inv in Hev as (al & Hal & [= <-]).
      exists (al :: als). split; [by rewrite <- app_assoc |].
      by constructor.
    + exists als. split; [|done].
      destruct ev as [tag attrs_list| |]; simpl in Hev.
      * rewrite handle_starttag_skipped in Hev by done. by injection Hev as <-.
      * by injection Hev as <-.
      * by injection Hev as <-.
Qed.

(** The [i]-th accepted anchor of a document that parses gives the
    [i]-th file of the result. *)
Lemma file_of_anchor name html d i attrs href :
  from_project_details_html name html = Ok d ->
  accepted_anchors html !! i = Some (attrs, href) ->
  exists al,
    archive_link_of attrs href = Ok al /\
    files d !! i = Some (file_details al).
Proof.
  unfold from_project_details_html. intros Hd Hi.
  apply bind_Ok_inv in Hd as (links & Hfeed & [= <-]).
  apply feed_Ok_inv in Hfeed as (als & -> & Hals). simpl.
  destruct (Forall2_lookup_l _ _ _ _ _ Hals Hi) as (al & Hal & Hok).
  exists al. split; [done |]. by rewrite list_lookup_fmap, Hal.
Qed.

Lemma files_length name html d :
  from_project_details_html name html = Ok d ->
  length (files d) = length (accepted_anchors html).
Proof.
  unfold from_project_details_html. intros Hd.
  apply bind_Ok_inv in Hd as (links & Hfeed & [= <-]).
  apply feed_Ok_inv in Hfeed as (als & -> & Hals). simpl.
  rewrite length_fmap. symmetry. by eapply Forall2_length.
Qed.

End ArchiveLinks.

(** ** One anchor *)

Section OneAnchor.
Context `{PyStdlib}.
Import ArchiveLinkHTMLParser.

(** The dictionary of an anchor, field by field. *)
Lemma archive_link_of_inv attrs href al :
  archive_link_of attrs href = Ok al ->
  exists p,
    UrlParse.urlparse href = Ok p /\
    al_filename al
    = UrlParse.unquote (PyStr.rpartition "/" (UrlParse.path p)).2 /\
    al_url al
    = UrlParse.urlunparse (UrlParse.scheme p) (UrlParse.netloc p)
        (UrlParse.path p) (UrlParse.params p) (UrlParse.query p) "" /\
    (if PyStr.truthy (UrlParse.fragment p)
     then match PyStr.split1 "=" (UrlParse.fragment p) with
          | [hash_algo; hash_value] =>
              al_hashes al = Some (lower hash_algo, hash_value)
          | _ => False
          end
     else al_hashes al = None) /\
    al_requires_python al
    = unescape <$> get_truthy attrs "data-requires-python" /\
    al_gpg_sig al
    = (fun v => bool_decide (v = Some "true")) <$> attrs !! "data-gpg-sig" /\
    al_yanked al
    = (fun _ => match get_truthy attrs "data-yanked" with
                | Some v => PyStr_ v
                | None => PyBool true
                end) <$> attrs !! "data-yanked" /\
    al_metadata al
    = (fun _ =>
         match get_truthy attrs "data-dist-info-metadata" with
         | Some found_metadata =>
             if negb (PyStr.eqb found_metadata "true") then
               ((lower (PyStr.partition "=" found_metadata).1.1),
                (PyStr.partition "=" found_metadata).2)
             else ("", "")
         | None => ("", "")
         end) <$> attrs !! "data-dist-info-metadata".
Proof.
  unfold archive_link_of. intros Hal.
  apply bind_Ok_inv in Hal as (p & Hp & Hal). exists p. split; [done |].
  destruct (PyStr.rpartition "/" (UrlParse.path p)) as [[dir sep] raw].
  apply bind_Ok_inv in Hal as (hs & Hhs & [= <-]). simpl.
  repeat split.
  - destruct (PyStr.truthy (UrlParse.fragment p)).
    + destruct (PyStr.split1 "=" (UrlParse.fragment p))
        as [|a [|v [|? ?]]]; try done. by injection Hhs as <-.
    + by injection Hhs as <-.
  - destruct (attrs !! "data-dist-info-metadata"); [|done]. simpl.
    destruct (get_truthy attrs "data-dist-info-metadata") as [m|]; [|done].
    destruct (negb (PyStr.eqb m "true")); [|done].
    by destruct (PyStr.partition "=" m) as [[a sep'] b].
Qed.

(** A fragment without ["="] makes the anchor raise. *)
Lemma archive_link_of_malformed attrs href p :
  UrlParse.urlparse href = Ok p ->
  UrlParse.fragment p <> "" ->
  PyStr.contains "=" (UrlParse.fragment p) = false ->
  archive_link_of attrs href = Raise ValueError.
Proof.
  intros Hp Hne Heq. unfold archive_link_of. rewrite Hp, bind_Ok.
  destruct (PyStr.rpartition "/" (UrlParse.path p)) as [[dir sep] raw].
  apply truthy_true in Hne. rewrite Hne.
  by rewrite split1_absent.
Qed.

End OneAnchor.

(** ** The sample page *)

Lemma sample_parses :
  @from_project_details_html basic_stdlib "Foo_Bar" Sample.html
  = Ok Sample.details.
Proof. reflexivity. Qed.

Lemma sample_anchor :
  accepted_anchors Sample.html !! 0
  = Some (dict Sample.attrs_list, Sample.href).
Proof. reflexivity. Qed.

Lemma sample_href_parses :
  @UrlParse.urlparse basic_stdlib Sample.href = Ok Sample.parsed_href.
Proof. reflexivity. Qed.

(** ** Claims about the archive-link parser *)

(** C1. A document with an anchor whose non-empty [href] parses to a URL
    with a fragment that has no ["="] is not parsed:
    [from_project_details_html] raises instead of returning a result. *)
Theorem malformed_fragment_is_parse_failure `{PyStdlib}
    (name : string) (html1 html2 : list html_event)
    (attrs_list : list (string * option string))
    (href : string) (p : UrlParse.ParseResult) :
  get_truthy (dict attrs_list) "href" = Some href ->
  UrlParse.urlparse href = Ok p ->
  UrlParse.fragment p <> "" ->
  PyStr.contains "=" (UrlParse.fragment p) = false ->
  raises (from_project_details_html name
            (html1 ++ StartTag "a" attrs_list :: html2)).
Proof.
  intros Hhref Hp Hne Heq.
  unfold from_project_details_html. apply raises_bind_l.
  rewrite feed_app.
  destruct (ArchiveLinkHTMLParser.feed [] html1) as [acc|e];
    [rewrite bind_Ok | by exists e].
  simpl. apply raises_bind_l.
  unfold ArchiveLinkHTMLParser.handle_starttag.
  rewrite Hhref. simpl. apply raises_bind_l.
  exists ValueError. by eapply archive_link_of_malformed.
Qed.

Lemma malformed_fragment_is_parse_failure_witness :
  raises (@from_project_details_html basic_stdlib "foo"
            ([Data "Links"]
             ++ StartTag "a" [("href", Some "foo-1.0.tar.gz#sha256")]
             :: [Data "foo-1.0.tar.gz"; EndTag "a"])).
Proof.
  apply (@malformed_fragment_is_parse_failure basic_stdlib "foo"
           [Data "Links"] [Data "foo-1.0.tar.gz"; EndTag "a"]
           [("href", Some "foo-1.0.tar.gz#sha256")]
           "foo-1.0.tar.gz#sha256"
           {| UrlParse.scheme := ""; UrlParse.netloc := "";
              UrlParse.path := "foo-1.0.tar.gz"; UrlParse.params := "";
              UrlParse.query := ""; UrlParse.fragment := "sha256" |});
    [reflexivity | reflexivity | discriminate | reflexivity].
Defined.

(** C8. For the record of an accepted anchor: ["yanked"] is missing when
    the anchor has no [data-yanked] attribute, is [True] when the attribute
    has no value or an empty one, and is the attribute's string
    otherwise. *)
Theorem yanked_field `{PyStdlib}
    (name : string) (html : list html_event) (d : ProjectDetails_1_0)
    (i : nat) (attrs : gmap string (option string)) (href : string) :
  from_project_details_html name html = Ok d ->
  accepted_anchors html !! i = Some (attrs, href) ->
  exists f,
    files d !! i = Some f /\
    (attrs !! "data-yanked" = None -> yanked f = None) /\
    (attrs !! "data-yanked" = Some None -> yanked f = Some (PyBool true)) /\
    (attrs !! "data-yanked" = Some (Some "") ->
     yanked f = Some (PyBool true)) /\
    (forall reason, reason <> "" ->
       attrs !! "data-yanked" = Some (Some reason) ->
       yanked f = Some (PyStr_ reason)).
Proof.
  intros Hd Hi.
  destruct (file_of_anchor _ _ _ _ _ _ Hd Hi) as (al & Hal & Hf).
  apply archive_link_of_inv in Hal
    as (p & _ & _ & _ & _ & _ & _ & Hy & _).
  exists (file_details al). split; [done |]. simpl. rewrite Hy.
  unfold get_truthy.
  repeat split; try (intros ->; reflexivity).
  intros reason Hne ->. simpl. by destruct reason.
Qed.

Lemma yanked_field_witness :
  @from_project_details_html basic_stdlib "Foo_Bar" Sample.html
  = Ok Sample.details /\
  accepted_anchors Sample.html !! 0
  = Some (dict Sample.attrs_list, Sample.href) /\
  exists f,
    files Sample.details !! 0 = Some f /\
    (dict Sample.attrs_list !! "data-yanked" = None -> yanked f = None) /\
    (dict Sample.attrs_list !! "data-yanked" = Some None ->
     yanked f = Some (PyBool true)) /\
    (dict Sample.attrs_list !! "data-yanked" = Some (Some "") ->
     yanked f = Some (PyBool true)) /\
    (forall reason, reason <> "" ->
       dict Sample.attrs_list !! "data-yanked" = Some (Some reason) ->
       yanked f = Some (PyStr_ reason)).
Proof.
  split; [reflexivity |]. split; [reflexivity |].
  apply (@yanked_field basic_stdlib "Foo_Bar" Sample.html Sample.details 0
           (dict Sample.attrs_list) Sample.href);
    reflexivity.
Defined.

(** C4, as the code has it.  For the record of an accepted anchor:
    ["requires-python"] is present exactly when the anchor has a
    [data-requires-python] attribute with a value that is not empty, and
    is then [html.unescape] of that value; so a value ["&gt;=3.7"] gives
    [">=3.7"] once [html.unescape] decodes it so. *)
Theorem requires_python_field `{PyStdlib}
    (name : string) (html : list html_event) (d : ProjectDetails_1_0)
    (i : nat) (attrs : gmap string (option string)) (href : string) :
  from_project_details_html name html = Ok d ->
  accepted_anchors html !! i = Some (attrs, href) ->
  exists f,
    files d !! i = Some f /\
    (is_Some (requires_python f) <->
     exists v, attrs !! "data-requires-python" = Some (Some v) /\ v <> "") /\
    (forall v, attrs !! "data-requires-python" = Some (Some v) -> v <> "" ->
       requires_python f = Some (unescape v)) /\
    (unescape "&gt;=3.7" = ">=3.7" ->
     attrs !! "data-requires-python" = Some (Some "&gt;=3.7") ->
     requires_python f = Some ">=3.7").
Proof.
  intros Hd Hi.
  destruct (file_of_anchor _ _ _ _ _ _ Hd Hi) as (al & Hal & Hf).
  apply archive_link_of_inv in Hal
    as (p & _ & _ & _ & _ & Hrp & _).
  exists (file_details al). split; [done |]. simpl. rewrite Hrp.
  unfold get_truthy.
  assert (Hval : forall v, attrs !! "data-requires-python" = Some (Some v) ->
            v <> "" ->
            unescape <$> match attrs !! "data-requires-python" with
                         | Some (Some v0) =>
                             if PyStr.truthy v0 then Some v0 else None
                         | _ => None
                         end = Some (unescape v)).
  { intros v -> Hv. apply truthy_true in Hv. by rewrite Hv. }
  split; [|split].
  - split.
    + destruct (attrs !! "data-requires-python") as [[v|]|];
        try (by intros [? [=]]).
      destruct (PyStr.truthy v) eqn:Hv; [|by intros [? [=]]].
      intros _. exists v. split; [done |]. by apply truthy_true.
    + intros (v & Hv & Hne). rewrite (Hval v Hv Hne). by eexists.
  - exact Hval.
  - intros Hgt Hv. rewrite (Hval _ Hv); [by rewrite Hgt | done].
Qed.

Lemma requires_python_field_witness :
  @from_project_details_html basic_stdlib "Foo_Bar" Sample.html
  = Ok Sample.details /\
  accepted_anchors Sample.html !! 0
  = Some (dict Sample.attrs_list, Sample.href) /\
  exists f,
    files Sample.details !! 0 = Some f /\
    (is_Some (requires_python f) <->
     exists v, dict Sample.attrs_list !! "data-requires-python"
               = Some (Some v) /\ v <> "") /\
    (forall v, dict Sample.attrs_list !! "data-requires-python"
               = Some (Some v) -> v <> "" ->
       requires_python f = Some (unescape_basic v)) /\
    (unescape_basic "&gt;=3.7" = ">=3.7" ->
     dict Sample.attrs_list !! "data-requires-python"
     = Some (Some "&gt;=3.7") ->
     requires_python f = Some ">=3.7").
Proof.
  split; [reflexivity |]. split; [reflexivity |].
  apply (@requires_python_field basic_stdlib "Foo_Bar" Sample.html
           Sample.details 0 (dict Sample.attrs_list) Sample.href);
    reflexivity.
Defined.

(** C4 as stated fails: an anchor that supplies [data-requires-python]
    with an empty value, or without a value, gets no ["requires-python"]. *)
Lemma requires_python_supplied_but_absent :
  let attrs_list := [("href", Some "foo-1.0.tar.gz");
                     ("data-requires-python", Some "")] in
  exists f,
    @from_project_details_html basic_stdlib "foo" [StartTag "a" attrs_list]
    = Ok {| details_api_version := "1.0"; name := "foo"; files := [f] |} /\
    is_Some (dict attrs_list !! "data-requires-python") /\
    requires_python f = None /\
    ~ (is_Some (requires_python f) <->
       is_Some (dict attrs_list !! "data-requires-python")).
Proof.
  eexists. split; [reflexivity |].
  assert (Hsup : is_Some (dict [("href", Some "foo-1.0.tar.gz");
                                ("data-requires-python", Some "")]
                          !! "data-requires-python")) by (by eexists).
  split; [exact Hsup |]. split; [reflexivity |].
  intros [_ Hback]. destruct (Hback Hsup) as [v Hv]. discriminate Hv.
Qed.

Lemma contains_separator (c : ascii) (a b : string) :
  PyStr.contains c (a +:+ String c b) = true.
Proof.
  induction a as [|d a IH].
  - rewrite append_empty_l. simpl. by rewrite Ascii.eqb_refl.
  - rewrite append_cons. simpl. by destruct (Ascii.eqb d c).
Qed.

Lemma eqb_false (s t : string) : s <> t -> PyStr.eqb s t = false.
Proof. intros Hne. unfold PyStr.eqb. by rewrite bool_decide_eq_false. Qed.

(** C5, as the code has it.  For the record of an accepted anchor that
    has a [data-dist-info-metadata] attribute: the field is [True] when
    the value is missing, empty or ["true"]; any other value is split at
    its first ["="] into an algorithm and a digest, and the field is
    [{lower(algorithm): digest}] when the algorithm is not empty and
    [True] when it is empty (the value starts with ["="]); a value with no
    ["="] is the algorithm, with the digest [""]. *)
Theorem dist_info_metadata_field `{PyStdlib}
    (name : string) (html : list html_event) (d : ProjectDetails_1_0)
    (i : nat) (attrs : gmap string (option string)) (href : string) :
  from_project_details_html name html = Ok d ->
  accepted_anchors html !! i = Some (attrs, href) ->
  exists f,
    files d !! i = Some f /\
    (attrs !! "data-dist-info-metadata" = Some None \/
     attrs !! "data-dist-info-metadata" = Some (Some "") \/
     attrs !! "data-dist-info-metadata" = Some (Some "true") ->
     dist_info_metadata f = Some (MetaBool true)) /\
    (forall algorithm digest,
       attrs !! "data-dist-info-metadata"
       = Some (Some (algorithm +:+ String "=" digest)) ->
       PyStr.contains "=" algorithm = false ->
       algorithm <> "" ->
       dist_info_metadata f
       = Some (MetaHashes {[ lower algorithm := digest ]})) /\
    (forall digest,
       attrs !! "data-dist-info-metadata" = Some (Some (String "=" digest)) ->
       dist_info_metadata f = Some (MetaBool true)) /\
    (forall value,
       attrs !! "data-dist-info-metadata" = Some (Some value) ->
       PyStr.contains "=" value = false ->
       value <> "" -> value <> "true" ->
       dist_info_metadata f
       = Some (MetaHashes {[ lower value := "" ]})).
Proof.
  intros Hd Hi.
  destruct (file_of_anchor _ _ _ _ _ _ Hd Hi) as (al & Hal & Hf).
  apply archive_link_of_inv in Hal
    as (p & _ & _ & _ & _ & _ & _ & _ & Hm).
  exists (file_details al). split; [done |]. simpl. rewrite Hm.
  unfold get_truthy. repeat split.
  - by intros [-> | [-> | ->]].
  - intros algorithm digest -> Hno Hne. simpl.
    assert (Hv : algorithm +:+ String "=" digest <> "") by by destruct algorithm.
    apply truthy_true in Hv. rewrite Hv.
    rewrite eqb_false.
    2:{ intros Htrue.
        pose proof (contains_separator "=" algorithm digest) as Hc.
        by rewrite Htrue in Hc. }
    simpl. rewrite partition_first by done. simpl.
    rewrite lower_truthy. apply truthy_true in Hne. by rewrite Hne.
  - intros digest ->. simpl.
    destruct (PyStr.eqb (String "=" digest) "true"); simpl;
      rewrite ?lower_truthy; done.
  - intros value -> Hno Hne Hnt. simpl.
    apply truthy_true in Hne as Hv. rewrite Hv.
    rewrite eqb_false by done. simpl.
    rewrite partition_absent by done. simpl.
    by rewrite lower_truthy, Hv.
Qed.

Lemma dist_info_metadata_field_witness :
  @from_project_details_html basic_stdlib "Foo_Bar" Sample.html
  = Ok Sample.details /\
  accepted_anchors Sample.html !! 0
  = Some (dict Sample.attrs_list, Sample.href) /\
  exists f,
    files Sample.details !! 0 = Some f /\
    (dict Sample.attrs_list !! "data-dist-info-metadata" = Some None \/
     dict Sample.attrs_list !! "data-dist-info-metadata" = Some (Some "") \/
     dict Sample.attrs_list !! "data-dist-info-metadata" = Some (Some "true") ->
     dist_info_metadata f = Some (MetaBool true)) /\
    (forall algorithm digest,
       dict Sample.attrs_list !! "data-dist-info-metadata"
       = Some (Some (algorithm +:+ String "=" digest)) ->
       PyStr.contains "=" algorithm = false ->
       algorithm <> "" ->
       dist_info_metadata f
       = Some (MetaHashes {[ @lower basic_stdlib algorithm := digest ]})) /\
    (forall digest,
       dict Sample.attrs_list !! "data-dist-info-metadata"
       = Some (Some (String "=" digest)) ->
       dist_info_metadata f = Some (MetaBool true)) /\
    (forall value,
       dict Sample.attrs_list !! "data-dist-info-metadata"
       = Some (Some value) ->
       PyStr.contains "=" value = false ->
       value <> "" -> value <> "true" ->
       dist_info_metadata f
       = Some (MetaHashes {[ @lower basic_stdlib value := "" ]})).
Proof.
  split; [reflexivity |]. split; [reflexivity |].
  apply (@dist_info_metadata_field basic_stdlib "Foo_Bar" Sample.html
           Sample.details 0 (dict Sample.attrs_list) Sample.href);
    reflexivity.
Defined.

(** C5 as stated fails: the value ["=abc"] is not empty and is not
    ["true"], and splits into the algorithm [""] and the digest ["abc"];
    the field is [True], not [{"": "abc"}]. *)
Lemma dist_info_metadata_empty_algorithm :
  exists f,
    @from_project_details_html basic_stdlib "foo"
      [StartTag "a" [("href", Some "foo-1.0.tar.gz");
                     ("data-dist-info-metadata", Some "=abc")]]
    = Ok {| details_api_version := "1.0"; name := "foo"; files := [f] |} /\
    PyStr.partition "=" "=abc" = ("", "=", "abc") /\
    dist_info_metadata f = Some (MetaBool true) /\
    dist_info_metadata f <> Some (MetaHashes {[ "" := "abc" ]}).
Proof.
  eexists. split; [reflexivity |]. split; [reflexivity |].
  split; [reflexivity | discriminate].
Qed.

Lemma file_in_files `{PyStdlib} name html d f :
  from_project_details_html name html = Ok d ->
  f ∈ files d -> exists al, f = file_details al.
Proof.
  unfold from_project_details_html. intros Hd Hf.
  apply bind_Ok_inv in Hd as (links & _ & [= <-]). simpl in Hf.
  apply list_elem_of_fmap in Hf as (al & -> & _). by exists al.
Qed.

(** C10. Every record has at most one hash: the fragment of an accepted
    anchor is split at its first ["="] only, into the single entry
    [{lower(algorithm): rest}], so that ["sha256=a=b"] gives
    [{"sha256": "a=b"}]. *)
Theorem hashes_at_most_one `{PyStdlib}
    (name : string) (html : list html_event) (d : ProjectDetails_1_0) :
  from_project_details_html name html = Ok d ->
  (forall f, f ∈ files d -> size (hashes f) <= 1) /\
  (forall i attrs href p algorithm rest,
     accepted_anchors html !! i = Some (attrs, href) ->
     UrlParse.urlparse href = Ok p ->
     UrlParse.fragment p = algorithm +:+ String "=" rest ->
     PyStr.contains "=" algorithm = false ->
     exists f, files d !! i = Some f /\
               hashes f = {[ lower algorithm := rest ]}) /\
  (forall i attrs href p,
     accepted_anchors html !! i = Some (attrs, href) ->
     UrlParse.urlparse href = Ok p ->
     UrlParse.fragment p = "sha256=a=b" ->
     exists f, files d !! i = Some f /\ hashes f = {[ "sha256" := "a=b" ]}).
Proof.
  intros Hd.
  assert (Hsplit : forall i attrs href p algorithm rest,
     accepted_anchors html !! i = Some (attrs, href) ->
     UrlParse.urlparse href = Ok p ->
     UrlParse.fragment p = algorithm +:+ String "=" rest ->
     PyStr.contains "=" algorithm = false ->
     exists f, files d !! i = Some f /\
               hashes f = {[ lower algorithm := rest ]}).
  { intros i attrs href p algorithm rest Hi Hp Hfrag Hno.
    destruct (file_of_anchor _ _ _ _ _ _ Hd Hi) as (al & Hal & Hf).
    apply archive_link_of_inv in Hal as (p' & Hp' & _ & _ & Hh & _).
    rewrite Hp in Hp'. injection Hp' as <-.
    rewrite Hfrag in Hh.
    assert (Ht : PyStr.truthy (algorithm +:+ String "=" rest) = true)
      by by destruct algorithm.
    rewrite Ht, split1_first in Hh by done.
    exists (file_details al). split; [done |]. simpl. by rewrite Hh. }
  split; [|split; [exact Hsplit |]].
  - intros f (al & ->)%(file_in_files _ _ _ _ Hd). simpl.
    destruct (al_hashes al) as [[algo value]|].
    + by rewrite map_size_singleton.
    + rewrite map_size_empty. lia.
  - intros i attrs href p Hi Hp Hfrag.
    destruct (Hsplit i attrs href p "sha256" "a=b" Hi Hp Hfrag eq_refl)
      as (f & Hf & Hh).
    exists f. split; [done |]. rewrite Hh.
    by rewrite lower_on_ascii.
Qed.

Lemma hashes_at_most_one_witness :
  @from_project_details_html basic_stdlib "Foo_Bar" Sample.html
  = Ok Sample.details /\
  (forall f, f ∈ files Sample.details -> size (hashes f) <= 1).
Proof.
  split; [reflexivity |].
  apply (@hashes_at_most_one basic_stdlib "Foo_Bar" Sample.html
           Sample.details).
  reflexivity.
Defined.

(** ** Claims about project URLs and names *)

(** C3, as the code has it.  [create_project_url] is a total function; its
    result is a base, then the canonical project name, then ["/"], where
    the base is [base_url] followed by one ["/"] when [base_url] is not
    empty and does not end with ["/"], and is [base_url] itself otherwise
    (an empty [base_url] stays empty, and a [base_url] that ends with
    ["/"] is not changed).  The example of the specification holds. *)
Theorem create_project_url_spec `{PyStdlib} (base_url project_name : string) :
  (exists base,
     create_project_url base_url project_name
     = base +:+ canonicalize_name project_name +:+ "/" /\
     (base_url <> "" /\ PyStr.endswith "/" base_url = false /\
      base = base_url +:+ "/"
      \/ (base_url = "" \/ PyStr.endswith "/" base_url = true) /\
         base = base_url) /\
     (base_url = "" \/ PyStr.endswith "/" base = true)) /\
  create_project_url "https://example.com/simple" "Holy_Grail"
  = "https://example.com/simple/holy-grail/".
Proof.
  split.
  - unfold create_project_url.
    destruct (PyStr.truthy base_url) eqn:Ht; simpl.
    + apply truthy_true in Ht.
      destruct (PyStr.endswith "/" base_url) eqn:He; simpl.
      * exists base_url. split; [done |]. split; [|by right].
        right. split; [by right | done].
      * exists (base_url +:+ "/"). split; [done |]. split.
        -- by left.
        -- right. apply endswith_append_char.
    + apply truthy_false in Ht as ->. exists "". split; [done |].
      split; [|by left]. right. split; [by left | done].
  - unfold create_project_url, canonicalize_name.
    change (sub_separator_runs false "Holy_Grail") with "Holy-Grail".
    by rewrite lower_on_ascii.
Qed.

(** C3 as stated fails for an empty [base_url], which gets no ["/"], and
    for a [base_url] that ends with several ["/"], which keeps them. *)
Lemma create_project_url_not_one_slash :
  @create_project_url basic_stdlib "" "Holy_Grail" = "holy-grail/" /\
  ~ (exists base,
       ends_with_one_slash base /\
       @create_project_url basic_stdlib "" "Holy_Grail"
       = base +:+ @canonicalize_name basic_stdlib "Holy_Grail" +:+ "/") /\
  @create_project_url basic_stdlib "https://example.com/simple//" "Holy_Grail"
  = "https://example.com/simple//holy-grail/".
Proof.
  split; [reflexivity |]. split; [|reflexivity].
  intros (base & (s0 & -> & _) & Heq).
  change (@create_project_url basic_stdlib "" "Holy_Grail")
    with ("" +:+ "holy-grail/") in Heq.
  change (@canonicalize_name basic_stdlib "Holy_Grail" +:+ "/")
    with "holy-grail/" in Heq.
  apply append_inv_tail in Heq. by destruct s0.
Qed.

(** C9. [canonicalize_name] is idempotent; hence the name of a parsed
    project page is a fixed point of it, and a project URL built from a
    canonical name is the URL built from the name itself. *)
Theorem canonical_name_is_stable `{PyStdlib}
    (x base_url n declared_name : string) (html : list html_event)
    (d : ProjectDetails_1_0) :
  from_project_details_html declared_name html = Ok d ->
  canonicalize_name (canonicalize_name x) = canonicalize_name x /\
  canonicalize_name (name d) = name d /\
  create_project_url base_url (canonicalize_name n)
  = create_project_url base_url n.
Proof.
  intros Hd. split; [apply canonicalize_name_idem |]. split.
  - unfold from_project_details_html in Hd.
    apply bind_Ok_inv in Hd as (links & _ & [= <-]). simpl.
    apply canonicalize_name_idem.
  - unfold create_project_url. by rewrite canonicalize_name_idem.
Qed.

Lemma canonical_name_is_stable_witness :
  @from_project_details_html basic_stdlib "Foo_Bar" Sample.html
  = Ok Sample.details /\
  @canonicalize_name basic_stdlib
    (@canonicalize_name basic_stdlib "Holy__Grail.X")
  = @canonicalize_name basic_stdlib "Holy__Grail.X" /\
  @canonicalize_name basic_stdlib (name Sample.details)
  = name Sample.details /\
  @create_project_url basic_stdlib "https://example.com/simple"
    (@canonicalize_name basic_stdlib "Holy__Grail.X")
  = @create_project_url basic_stdlib "https://example.com/simple"
      "Holy__Grail.X".
Proof.
  split; [reflexivity |].
  apply (@canonical_name_is_stable basic_stdlib "Holy__Grail.X"
           "https://example.com/simple" "Holy__Grail.X" "Foo_Bar"
           Sample.html Sample.details).
  reflexivity.
Defined.

(** ** Claims about the index parser *)

Lemma index_feed_app st h1 h2 :
  SimpleIndexHTMLParser.feed st (h1 ++ h2)
  = SimpleIndexHTMLParser.feed (SimpleIndexHTMLParser.feed st h1) h2.
Proof. apply foldl_app. Qed.

Lemma index_feed_chunks (chunks : list string) : forall names,
  SimpleIndexHTMLParser.feed
    {| SimpleIndexHTMLParser._parsing_anchor := true;
       SimpleIndexHTMLParser.names := names |}
    (Data <$> chunks)
  = {| SimpleIndexHTMLParser._parsing_anchor := true;
       SimpleIndexHTMLParser.names := names ++ chunks |}.
Proof.
  induction chunks as [|text chunks IH]; intros names.
  - simpl. by rewrite app_nil_r.
  - simpl. unfold SimpleIndexHTMLParser.handle_data. simpl.
    rewrite IH. by rewrite <- app_assoc.
Qed.

Lemma index_feed_items (items : list index_item) :
  Forall (fun it => outside_anchor it = true) items ->
  forall names,
    SimpleIndexHTMLParser.feed
      {| SimpleIndexHTMLParser._parsing_anchor := false;
         SimpleIndexHTMLParser.names := names |}
      (index_page items)
    = {| SimpleIndexHTMLParser._parsing_anchor := false;
         SimpleIndexHTMLParser.names :=
           names ++ concat (anchor_chunks <$> items) |}.
Proof.
  induction 1 as [|it items Hit _ IH]; intros names.
  - simpl. by rewrite app_nil_r.
  - unfold index_page. rewrite !fmap_cons. simpl concat.
    rewrite index_feed_app. fold (index_page items).
    destruct it as [chunks|ev].
    + simpl item_events.
      change (SimpleIndexHTMLParser.feed _
                (StartTag "a" [] :: (Data <$> chunks) ++ [EndTag "a"]))
        with (SimpleIndexHTMLParser.feed
                {| SimpleIndexHTMLParser._parsing_anchor := true;
                   SimpleIndexHTMLParser.names := names |}
                ((Data <$> chunks) ++ [EndTag "a"])).
      rewrite index_feed_app, index_feed_chunks.
      change (SimpleIndexHTMLParser.feed _ [EndTag "a"])
        with {| SimpleIndexHTMLParser._parsing_anchor := false;
                SimpleIndexHTMLParser.names := names ++ chunks |}.
      rewrite IH. simpl. by rewrite <- app_assoc.
    + destruct ev as [tag attrs_list|tag|data]; simpl in Hit |- *.
      * unfold SimpleIndexHTMLParser.handle_starttag. rewrite Hit. apply IH.
      * unfold SimpleIndexHTMLParser.handle_endtag. rewrite Hit. apply IH.
      * apply IH.
Qed.

Lemma one_chunk_texts (items : list index_item) :
  Forall (fun it => one_chunk it = true) items ->
  concat (anchor_chunks <$> items) = omap anchor_text items.
Proof.
  induction 1 as [|it items Hit _ IH]; [done |].
  rewrite fmap_cons. simpl. rewrite IH.
  by destruct it as [[|text [|? ?]]|ev].
Qed.

(** C7, as the code has it.  On an index page whose anchors have no
    attribute and hold text only, [from_project_index_html] gives the
    envelope with the version ["1.0"] and one project per text that
    [handle_data] receives inside an anchor, in document order, named by
    that text as it is; text and tags outside the anchors give no project.
    So there is one project per anchor, named by the anchor's text, when
    the text of every anchor is received in one piece. *)
Theorem index_of_plain_anchors (items : list index_item) :
  Forall (fun it => outside_anchor it = true) items ->
  from_project_index_html (index_page items)
  = {| index_api_version := "1.0";
       projects := concat (anchor_chunks <$> items) |} /\
  (Forall (fun it => one_chunk it = true) items ->
   from_project_index_html (index_page items)
   = {| index_api_version := "1.0"; projects := omap anchor_text items |}).
Proof.
  intros Hitems.
  assert (Hall : from_project_index_html (index_page items)
                 = {| index_api_version := "1.0";
                      projects := concat (anchor_chunks <$> items) |}).
  { unfold from_project_index_html, SimpleIndexHTMLParser.__init__.
    by rewrite index_feed_items. }
  split; [done |]. intros Hone. by rewrite Hall, one_chunk_texts.
Qed.

Lemma index_of_plain_anchors_witness :
  let items :=
    [Outside (StartTag "body" []); Outside (Data "Simple index");
     Anchor ["Holy_Grail"]; Outside (Data " "); Outside (StartTag "br" []);
     Anchor ["a "; "<"; " b"]; Anchor []; Outside (EndTag "body")] in
  Forall (fun it => outside_anchor it = true) items /\
  from_project_index_html (index_page items)
  = {| index_api_version := "1.0";
       projects := ["Holy_Grail"; "a "; "<"; " b"] |}.
Proof.
  intros items.
  assert (Hitems : Forall (fun it => outside_anchor it = true) items)
    by (repeat constructor).
  split; [exact Hitems |].
  exact (proj1 (index_of_plain_anchors items Hitems)).
Defined.

(** C7 as stated fails: there is one project per call of [handle_data]
    inside an anchor, not one per anchor.  For [<a></a>] the tokenizer
    calls [handle_data] not at all, and the anchor gives no project; for
    [<a>a < b</a>] it calls it three times, with ["a "], ["<"] and
    [" b"], and the anchor gives three projects, none named ["a < b"]. *)
Lemma index_entry_per_text_not_per_anchor :
  from_project_index_html [StartTag "a" []; EndTag "a"]
  = {| index_api_version := "1.0"; projects := [] |} /\
  from_project_index_html
    [StartTag "a" []; Data "a "; Data "<"; Data " b"; EndTag "a"]
  = {| index_api_version := "1.0"; projects := ["a "; "<"; " b"] |} /\
  projects (from_project_index_html
              [StartTag "a" []; Data "a "; Data "<"; Data " b"; EndTag "a"])
  <> ["a < b"].
Proof. split; [reflexivity |]. split; [reflexivity | discriminate]. Qed.

(** ** URLs *)

Lemma contains_append (c : ascii) (a b : string) :
  PyStr.contains c (a +:+ b) = PyStr.contains c a || PyStr.contains c b.
Proof.
  induction a as [|d a IH]; [done |].
  rewrite append_cons. simpl. by destruct (Ascii.eqb d c).
Qed.

Lemma all_append (q : ascii -> bool) (a b : string) :
  PyStr.all q (a +:+ b) = PyStr.all q a && PyStr.all q b.
Proof.
  induction a as [|d a IH]; [done |].
  rewrite append_cons. simpl. rewrite IH. by destruct (q d).
Qed.

Lemma remove_absent (c : ascii) (s : string) :
  PyStr.contains c s = false -> PyStr.remove c s = s.
Proof.
  induction s as [|d s IH]; simpl; [done |].
  destruct (Ascii.eqb d c); [done |]. intros Hs. by rewrite IH.
Qed.

Lemma remove_append (c : ascii) (a b : string) :
  PyStr.remove c (a +:+ b) = PyStr.remove c a +:+ PyStr.remove c b.
Proof.
  induction a as [|d a IH]; [done |].
  rewrite append_cons. simpl.
  destruct (Ascii.eqb d c); [done |]. by rewrite append_cons, IH.
Qed.

(** The text before the first [c], the separator and the rest. *)
Lemma partition_spec (c : ascii) (s : string) :
  exists a sep b,
    PyStr.partition c s = (a, sep, b) /\
    s = a +:+ sep +:+ b /\
    PyStr.contains c a = false /\
    (sep = String c "" \/ sep = "" /\ b = "").
Proof.
  destruct (PyStr.contains c s) eqn:Hs.
  - apply partition_present in Hs as (a & b & -> & Ha & Hp).
    exists a, (String c ""), b. repeat split; try done. by left.
  - exists s, "", "". rewrite partition_absent by done.
    repeat split; try done.
    + by rewrite append_empty_r.
    + by right.
Qed.

Lemma remove_unsafe_fragment_part (tail : string) :
  fragment_part tail -> fragment_part (UrlParse.remove_unsafe tail).
Proof.
  intros [-> | [frag ->]]; [left; reflexivity |].
  right. eexists. reflexivity.
Qed.

Lemma remove_unsafe_clean (pre tail : string) :
  no_unsafe pre = true ->
  UrlParse.remove_unsafe (pre +:+ tail) = pre +:+ UrlParse.remove_unsafe tail.
Proof.
  unfold no_unsafe, UrlParse.remove_unsafe.
  intros [[H9%negb_true_iff H13%negb_true_iff]%andb_true_iff
            H10%negb_true_iff]%andb_true_iff.
  rewrite !remove_append.
  by rewrite (remove_absent _ pre H9), (remove_absent _ pre H13),
    (remove_absent _ pre H10).
Qed.

Lemma lstrip_unstripped (pre tail : string) :
  unstripped pre = true -> fragment_part tail ->
  PyStr.lstrip UrlParse.c0_control_or_space (pre +:+ tail) = pre +:+ tail.
Proof.
  intros Hpre Htail. destruct pre as [|c pre].
  - rewrite append_empty_l. by destruct Htail as [-> | [frag ->]].
  - rewrite append_cons. simpl in *.
    by destruct (UrlParse.c0_control_or_space c).
Qed.

Lemma hash_before_colon (pre frag a b : string) :
  pre +:+ String "#" frag = a +:+ String ":" b ->
  PyStr.contains ":" pre = false ->
  PyStr.contains "#" a = true.
Proof.
  revert a. induction pre as [|d pre IH]; intros [|e a] Heq Hpre.
  - discriminate Heq.
  - rewrite append_empty_l, append_cons in Heq. by injection Heq as <- _.
  - rewrite append_empty_l, append_cons in Heq. injection Heq as -> _.
    discriminate Hpre.
  - rewrite !append_cons in Heq. injection Heq as <- Heq.
    simpl in Hpre |- *. destruct (Ascii.eqb d ":"); [done |].
    destruct (Ascii.eqb d "#"); [done |]. by apply IH.
Qed.

Lemma all_scheme_char_no_hash (s : string) :
  PyStr.contains "#" s = true -> PyStr.all UrlParse.scheme_char s = false.
Proof.
  induction s as [|d s IH]; [done |]. simpl.
  destruct (Ascii.eqb d "#") eqn:Hd.
  - apply Ascii.eqb_eq in Hd as ->. done.
  - intros Hs. rewrite IH by done. apply andb_false_r.
Qed.

Lemma split_scheme_none `{PyStdlib} (pre tail : string) :
  PyStr.contains ":" pre = false -> fragment_part tail ->
  UrlParse.split_scheme (pre +:+ tail) = ("", pre +:+ tail).
Proof.
  intros Hpre Htail. unfold UrlParse.split_scheme.
  destruct (partition_spec ":" (pre +:+ tail))
    as (a & sep & b & Hp & Heq & Ha & Hsep).
  rewrite Hp. destruct a as [|c0 a]; [done |].
  destruct Hsep as [-> | [-> ->]]; [|done].
  change (String ":" "" +:+ b) with (String ":" b) in Heq.
  assert (Hall : PyStr.all UrlParse.scheme_char (String c0 a) = false);
    [|by rewrite Hall, andb_false_r].
  destruct Htail as [-> | [frag ->]].
  - rewrite append_empty_r in Heq. subst pre.
    by rewrite contains_separator in Hpre.
  - apply all_scheme_char_no_hash. by eapply hash_before_colon.
Qed.

Lemma starts_slash_slash_fragment_part (pre tail : string) :
  PyStr.starts_slash_slash pre = false -> fragment_part tail ->
  PyStr.starts_slash_slash (pre +:+ tail) = false.
Proof.
  intros Hpre Htail. destruct pre as [|c1 [|c2 pre]]; [| |done].
  - rewrite append_empty_l.
    destruct Htail as [-> | [[|c frag] ->]]; reflexivity.
  - destruct Htail as [-> | [frag ->]]; [done |].
    change (Ascii.eqb c1 "/" && Ascii.eqb "#" "/" = false).
    apply andb_false_r.
Qed.

(** [urlparse] of a path-only reference, with or without a fragment. *)
Lemma urlparse_path_only `{PyStdlib} (pre tail : string) :
  path_only pre = true ->
  PyStr.contains "#" pre = false ->
  fragment_part tail ->
  exists frag,
    UrlParse.urlparse (pre +:+ tail)
    = Ok {| UrlParse.scheme := ""; UrlParse.netloc := "";
            UrlParse.path := pre; UrlParse.params := "";
            UrlParse.query := ""; UrlParse.fragment := frag |}.
Proof.
  unfold path_only.
  intros [[[[[Hun Hsafe]%andb_true_iff Hcolon%negb_true_iff]%andb_true_iff
             Hsemi%negb_true_iff]%andb_true_iff
            Hquery%negb_true_iff]%andb_true_iff
           Hslash%negb_true_iff]%andb_true_iff Hhash Htail.
  unfold UrlParse.urlparse, UrlParse.urlsplit.
  rewrite lstrip_unstripped, remove_unsafe_clean by done.
  apply remove_unsafe_fragment_part in Htail.
  rewrite split_scheme_none by done.
  rewrite starts_slash_slash_fragment_part by done.
  rewrite bind_Ok.
  destruct Htail as [-> | [frag ->]].
  - rewrite append_empty_r, Hhash, Hquery. exists "". simpl.
    by rewrite Hsemi.
  - rewrite contains_separator, partition_first by done.
    rewrite Hquery. exists frag. simpl. by rewrite Hsemi.
Qed.

Lemma urlunparse_path_only (path : string) :
  UrlParse.urlunparse "" "" path "" "" "" = path.
Proof. reflexivity. Qed.

Lemma strip_fragment_spec (href : string) :
  exists tail,
    href = strip_fragment href +:+ tail /\
    PyStr.contains "#" (strip_fragment href) = false /\
    fragment_part tail.
Proof.
  unfold strip_fragment.
  destruct (partition_spec "#" href) as (a & sep & b & -> & Heq & Ha & Hsep).
  simpl. exists (sep +:+ b). split; [done |]. split; [done |].
  destruct Hsep as [-> | [-> ->]]; [right; by exists b | by left].
Qed.

Lemma append_eq_empty (a b : string) : a +:+ b = "" -> a = "" /\ b = "".
Proof. destruct a; [done | by rewrite append_cons]. Qed.

Lemma unquote_to_bytes_empty (s : string) :
  UrlParse.unquote_to_bytes s = "" -> s = "".
Proof.
  destruct s as [|c s]; [done |]. simpl.
  destruct (Ascii.eqb c "%"); [|done].
  destruct s as [|h1 [|h2 s]]; try done.
  by destruct (UrlParse.hex_value h1), (UrlParse.hex_value h2).
Qed.

Lemma decode_run_empty `{PyStdlib} (run : string) :
  UrlParse.decode_run run = "" -> run = "".
Proof.
  unfold UrlParse.decode_run.
  destruct (PyStr.truthy run) eqn:Ht; [|intros _; by apply truthy_false].
  intros Hrun%utf8_decode_nonempty. by apply unquote_to_bytes_empty.
Qed.

Lemma unquote_runs_empty `{PyStdlib} (s : string) : forall run,
  UrlParse.unquote_runs run s = "" -> run = "" /\ s = "".
Proof.
  induction s as [|c s IH]; intros run; simpl.
  - intros Hrun%decode_run_empty. done.
  - destruct (PyStr.is_ascii c).
    + intros [Hrun _]%IH. by destruct run.
    + intros [_ Hrest]%append_eq_empty. done.
Qed.

Lemma unquote_empty `{PyStdlib} (s : string) :
  UrlParse.unquote s = "" <-> s = "".
Proof.
  split; [|by intros ->]. unfold UrlParse.unquote.
  destruct (PyStr.contains "%" s); [|done].
  by intros [_ ?]%unquote_runs_empty.
Qed.

(** The text before the last [c], the separator and the rest. *)
Lemma rpartition_spec (c : ascii) (s : string) :
  exists a sep b,
    PyStr.rpartition c s = (a, sep, b) /\
    s = a +:+ sep +:+ b /\
    PyStr.contains c b = false /\
    (sep = String c "" \/ sep = "" /\ a = "").
Proof.
  induction s as [|d s (a & sep & b & Hp & -> & Hb & Hsep)].
  - exists "", "", "". repeat split. by right.
  - simpl. rewrite Hp. destruct Hsep as [-> | [-> ->]]; simpl.
    + exists (String d a), (String c ""), b. repeat split; [done |]. by left.
    + rewrite append_empty_l. destruct (Ascii.eqb d c) eqn:Hd.
      * apply Ascii.eqb_eq in Hd as ->.
        exists "", (String c ""), b. repeat split; [done |]. by left.
      * exists "", "", (String d b). repeat split.
        -- simpl. by rewrite Hd.
        -- by right.
Qed.

Lemma rpartition_absent (c : ascii) (s : string) :
  PyStr.contains c s = false -> PyStr.rpartition c s = ("", "", s).
Proof.
  induction s as [|d s IH]; [done |]. simpl.
  destruct (Ascii.eqb d c); [done |]. intros Hs. by rewrite IH.
Qed.

Lemma rpartition_last (c : ascii) (a b : string) :
  PyStr.contains c b = false ->
  PyStr.rpartition c (a +:+ String c b) = (a, String c "", b).
Proof.
  intros Hb. induction a as [|d a IH].
  - rewrite append_empty_l. simpl. rewrite rpartition_absent by done.
    simpl. by rewrite Ascii.eqb_refl.
  - rewrite append_cons. simpl. by rewrite IH.
Qed.

Lemma endswith_contains (c : ascii) (s : string) :
  PyStr.endswith c s = true -> PyStr.contains c s = true.
Proof.
  induction s as [|d s IH]; [done |]. simpl.
  destruct s as [|e s]; [by intros -> |].
  intros Hs. rewrite IH by done. by destruct (Ascii.eqb d c).
Qed.

Lemma endswith_append (c : ascii) (a b : string) :
  b <> "" -> PyStr.endswith c (a +:+ b) = PyStr.endswith c b.
Proof.
  intros Hb. induction a as [|d a IH]; [done |].
  rewrite append_cons. simpl.
  destruct (a +:+ b) eqn:E; [|done].
  by apply append_eq_empty in E as [_ ->].
Qed.

(** The last segment of a path is empty exactly when the path is empty or
    ends with ["/"]. *)
Lemma last_segment_empty (path : string) :
  (PyStr.rpartition "/" path).2 = ""
  <-> path = "" \/ PyStr.endswith "/" path = true.
Proof.
  destruct (rpartition_spec "/" path)
    as (a & sep & b & -> & -> & Hb & Hsep). simpl.
  split.
  - intros ->. destruct Hsep as [-> | [-> ->]]; [right | by left].
    rewrite append_empty_r. apply endswith_append_char.
  - intros [Hempty | Hend].
    + apply append_eq_empty in Hempty as [_ Hempty].
      by apply append_eq_empty in Hempty as [_ ->].
    + destruct b as [|e b]; [done |]. exfalso.
      rewrite <- append_assoc, endswith_append in Hend by done.
      apply endswith_contains in Hend. congruence.
Qed.

(** [urlunparse] gives the empty string only for empty components. *)
Lemma urlunparse_empty (scheme netloc path params query : string) :
  UrlParse.urlunparse scheme netloc path params query "" = ""
  <-> scheme = "" /\ netloc = "" /\ path = "" /\ params = "" /\ query = "".
Proof.
  split; [|by intros (-> & -> & -> & -> & ->)].
  unfold UrlParse.urlunparse, UrlParse.urlunsplit.
  destruct query as [|q query]; simpl.
  2:{ intros Hq. apply append_eq_empty in Hq as [_ Hq]. discriminate Hq. }
  destruct scheme as [|s scheme]; simpl.
  2:{ intros Hs. discriminate Hs. }
  destruct netloc as [|n netloc]; simpl.
  2:{ intros Hn. discriminate Hn. }
  destruct params as [|p params]; simpl; [by intros -> |].
  intros Hp. apply append_eq_empty in Hp as [_ Hp]. discriminate Hp.
Qed.

(** ** Claims about the URL, the file name and the hashes *)

Lemma accepted_anchor_href (html : list html_event) i attrs href :
  accepted_anchors html !! i = Some (attrs, href) ->
  attrs !! "href" = Some (Some href) /\ href <> "".
Proof.
  intros Hi. apply list_elem_of_lookup_2 in Hi.
  apply list_elem_of_omap in Hi as (ev & _ & Hev).
  destruct ev as [tag attrs_list| |]; try done. simpl in Hev.
  destruct (PyStr.eqb tag "a"); [|done].
  unfold get_truthy in Hev.
  destruct (dict attrs_list !! "href") as [[v|]|] eqn:Hv; try done.
  destruct (PyStr.truthy v) eqn:Ht; [|done].
  injection Hev as <- <-. split; [done |]. by apply truthy_true.
Qed.

Lemma anchor_without_href (attrs_list : list (string * option string)) :
  dict attrs_list !! "href" = None \/
  dict attrs_list !! "href" = Some None \/
  dict attrs_list !! "href" = Some (Some "") ->
  accepted_anchor (StartTag "a" attrs_list) = None.
Proof.
  intros Hhref. unfold accepted_anchor, get_truthy.
  change (PyStr.eqb "a" "a") with true.
  by destruct Hhref as [-> | [-> | ->]].
Qed.

Lemma feed_skip `{PyStdlib} acc html1 html2 tag attrs_list :
  accepted_anchor (StartTag tag attrs_list) = None ->
  ArchiveLinkHTMLParser.feed acc (html1 ++ StartTag tag attrs_list :: html2)
  = ArchiveLinkHTMLParser.feed acc (html1 ++ html2).
Proof.
  intros Hskip. rewrite !feed_app.
  destruct (ArchiveLinkHTMLParser.feed acc html1) as [acc'|e]; [|done].
  rewrite !bind_Ok. simpl.
  by rewrite handle_starttag_skipped.
Qed.

(** C2, as the code has it.  A parsed page has one record per accepted
    anchor (a start tag [a] whose [href] has a value that is not empty),
    in document order, each with a file name and a URL; the file name is
    not empty exactly when the path of the [href] is not empty and does
    not end with ["/"], and the URL is not empty exactly when the [href]
    has a scheme, an authority, a path, parameters or a query.  An anchor
    without [href], or with an empty one, gives no record whatever its
    other attributes are: the result is that of the page without it. *)
Theorem accepted_anchor_records `{PyStdlib}
    (name : string) (html : list html_event) (d : ProjectDetails_1_0) :
  from_project_details_html name html = Ok d ->
  length (files d) = length (accepted_anchors html) /\
  (forall i attrs href,
     accepted_anchors html !! i = Some (attrs, href) ->
     attrs !! "href" = Some (Some href) /\ href <> "" /\
     exists p f,
       UrlParse.urlparse href = Ok p /\
       files d !! i = Some f /\
       (filename f <> "" <->
        UrlParse.path p <> "" /\ PyStr.endswith "/" (UrlParse.path p) = false) /\
       (url f <> "" <->
        ~ (UrlParse.scheme p = "" /\ UrlParse.netloc p = "" /\
           UrlParse.path p = "" /\ UrlParse.params p = "" /\
           UrlParse.query p = ""))) /\
  (forall html1 html2 attrs_list,
     html = html1 ++ StartTag "a" attrs_list :: html2 ->
     dict attrs_list !! "href" = None \/
     dict attrs_list !! "href" = Some None \/
     dict attrs_list !! "href" = Some (Some "") ->
     from_project_details_html name (html1 ++ html2) = Ok d).
Proof.
  intros Hd. split; [by eapply files_length |]. split.
  - intros i attrs href Hi.
    destruct (accepted_anchor_href _ _ _ _ Hi) as [Hhref Hne].
    split; [done |]. split; [done |].
    destruct (file_of_anchor _ _ _ _ _ _ Hd Hi) as (al & Hal & Hf).
    apply archive_link_of_inv in Hal as (p & Hp & Hfn & Hurl & _).
    exists p, (file_details al). split; [done |]. split; [done |].
    simpl. rewrite Hfn, Hurl. split.
    + rewrite unquote_empty, last_segment_empty.
      destruct (PyStr.endswith "/" (UrlParse.path p)); split.
      * intros Hno. exfalso. apply Hno. by right.
      * by intros [_ ?].
      * intros Hno. split; [|done]. intros Hempty. apply Hno. by left.
      * intros [Hpath _] [Hempty | ?]; done.
    + by rewrite urlunparse_empty.
  - intros html1 html2 attrs_list -> Hhref.
    rewrite <- Hd. unfold from_project_details_html.
    by rewrite (feed_skip _ _ _ _ _ (anchor_without_href _ Hhref)).
Qed.

Lemma accepted_anchor_records_witness :
  @from_project_details_html basic_stdlib "Foo_Bar" Sample.html
  = Ok Sample.details /\
  length (files Sample.details) = length (accepted_anchors Sample.html).
Proof.
  split; [reflexivity |].
  apply (@accepted_anchor_records basic_stdlib "Foo_Bar" Sample.html
           Sample.details).
  reflexivity.
Defined.

(** C2 as stated fails: an [href] that is only a fragment is not empty,
    so that its anchor is accepted, and gives an empty file name and an
    empty URL; an [href] that ends with ["/"] gives an empty file name. *)
Lemma accepted_anchor_with_empty_fields :
  (exists f,
     @from_project_details_html basic_stdlib "foo"
       [StartTag "a" [("href", Some "#sha256=abc123")]]
     = Ok {| details_api_version := "1.0"; name := "foo"; files := [f] |} /\
     filename f = "" /\ url f = "") /\
  (exists f,
     @from_project_details_html basic_stdlib "foo"
       [StartTag "a" [("href", Some "https://example.com/packages/")]]
     = Ok {| details_api_version := "1.0"; name := "foo"; files := [f] |} /\
     filename f = "").
Proof.
  split; eexists; (split; [reflexivity |]); [split |]; reflexivity.
Qed.

Lemma all_contains (q : ascii -> bool) (c : ascii) (s : string) :
  PyStr.all q s = true -> q c = false -> PyStr.contains c s = false.
Proof.
  intros Hall Hc. induction s as [|d s IH]; [done |]. simpl in *.
  apply andb_true_iff in Hall as [Hd Hall].
  destruct (Ascii.eqb d c) eqn:E; [|by apply IH].
  apply Ascii.eqb_eq in E as ->. congruence.
Qed.

Lemma lower_scheme_char_lower (c : ascii) :
  lower_scheme_char c = true ->
  PyStr.lower_ascii c = c /\ UrlParse.scheme_char c = true /\
  PyStr.is_ascii c = true.
Proof. destruct c as [[] [] [] [] [] [] [] []]; by compute. Qed.

Lemma lower_scheme `{PyStdlib} (s : string) :
  PyStr.all lower_scheme_char s = true ->
  lower s = s /\ PyStr.all UrlParse.scheme_char s = true.
Proof.
  intros Hs.
  assert (Hascii : PyStr.isascii s = true /\ PyStr.ascii_lower s = s /\
                   PyStr.all UrlParse.scheme_char s = true).
  { induction s as [|c s IH]; [done |]. simpl in *.
    apply andb_true_iff in Hs as [Hc Hs].
    destruct (lower_scheme_char_lower c Hc) as (-> & -> & ->).
    by destruct (IH Hs) as (-> & -> & ->). }
  destruct Hascii as (Hascii & Hlow & Hchars).
  by rewrite lower_on_ascii, Hlow.
Qed.

Lemma is_lower_alpha (c : ascii) :
  PyStr.is_lower c = true ->
  PyStr.is_ascii c = true /\ PyStr.is_alpha c = true /\
  UrlParse.c0_control_or_space c = false.
Proof. destruct c as [[] [] [] [] [] [] [] []]; by compute. Qed.

Lemma host_char_spec (c : ascii) :
  host_char c = true ->
  PyStr.is_ascii c = true /\
  (Ascii.eqb c "/" || Ascii.eqb c "?" || Ascii.eqb c "#") = false /\
  Ascii.eqb c "[" = false /\ Ascii.eqb c "]" = false /\
  Ascii.eqb c "009" = false /\ Ascii.eqb c "013" = false /\
  Ascii.eqb c "010" = false.
Proof. destruct c as [[] [] [] [] [] [] [] []]; by compute. Qed.

Lemma host_isascii (s : string) :
  PyStr.all host_char s = true -> PyStr.isascii s = true.
Proof.
  induction s as [|c s IH]; [done |]. simpl.
  intros [Hc Hs]%andb_true_iff.
  destruct (host_char_spec c Hc) as (-> & _). by rewrite IH.
Qed.

Lemma split_at_delim_host (host rest : string) :
  PyStr.all host_char host = true ->
  (rest = "" \/ PyStr.starts_with "/" rest = true
   \/ PyStr.starts_with "#" rest = true) ->
  UrlParse.split_at_delim (host +:+ rest) = (host, rest).
Proof.
  intros Hhost Hrest. induction host as [|c host IH].
  - rewrite append_empty_l. destruct rest as [|d rest]; [done |].
    simpl in *. destruct Hrest as [? | [Hd | Hd]]; [done | |];
      apply Ascii.eqb_eq in Hd as ->; reflexivity.
  - rewrite append_cons. simpl in *.
    apply andb_true_iff in Hhost as [Hc Hhost].
    destruct (host_char_spec c Hc) as (_ & -> & _). by rewrite IH.
Qed.

Lemma no_unsafe_append (a b : string) :
  no_unsafe (a +:+ b) = no_unsafe a && no_unsafe b.
Proof.
  unfold no_unsafe. rewrite !contains_append.
  by destruct (PyStr.contains "009" a), (PyStr.contains "013" a),
    (PyStr.contains "010" a), (PyStr.contains "009" b),
    (PyStr.contains "013" b), (PyStr.contains "010" b).
Qed.

Lemma no_unsafe_scheme (s : string) :
  PyStr.all lower_scheme_char s = true -> no_unsafe s = true.
Proof.
  intros Hs. unfold no_unsafe.
  by rewrite !(all_contains lower_scheme_char _ s Hs).
Qed.

Lemma no_unsafe_host (s : string) :
  PyStr.all host_char s = true -> no_unsafe s = true.
Proof.
  intros Hs. unfold no_unsafe.
  by rewrite !(all_contains host_char _ s Hs).
Qed.

(** [urlparse] of an absolute URL, with or without a fragment. *)
Lemma urlparse_absolute `{PyStdlib} (scheme host path tail : string) :
  absolute_url scheme host path = true ->
  PyStr.contains "#" path = false ->
  fragment_part tail ->
  exists frag,
    UrlParse.urlparse (scheme +:+ "://" +:+ host +:+ path +:+ tail)
    = Ok {| UrlParse.scheme := scheme; UrlParse.netloc := host;
            UrlParse.path := path; UrlParse.params := "";
            UrlParse.query := ""; UrlParse.fragment := frag |}.
Proof.
  unfold absolute_url.
  intros [[[[[[[Hc0 Hsch]%andb_true_iff Hhne]%andb_true_iff
               Hhost]%andb_true_iff Hpath]%andb_true_iff
             Hsafe]%andb_true_iff Hsemi%negb_true_iff]%andb_true_iff
           Hquery%negb_true_iff]%andb_true_iff Hhash Htail.
  destruct scheme as [|c0 scheme']; [done |].
  set (scheme := String c0 scheme') in *.
  destruct (is_lower_alpha c0 Hc0) as (Hascii & Halpha & Hc0sp).
  destruct (lower_scheme scheme Hsch) as [Hlower Hchars].
  unfold UrlParse.urlparse, UrlParse.urlsplit.
  (* nothing is stripped or removed before the fragment *)
  replace (scheme +:+ "://" +:+ host +:+ path +:+ tail)
    with ((scheme +:+ "://" +:+ host +:+ path) +:+ tail)
    by by rewrite !append_assoc.
  rewrite lstrip_unstripped; [|by simpl; rewrite Hc0sp | done].
  rewrite remove_unsafe_clean.
  2:{ rewrite !no_unsafe_append.
      rewrite (no_unsafe_scheme _ Hsch), (no_unsafe_host _ Hhost), Hsafe.
      reflexivity. }
  apply remove_unsafe_fragment_part in Htail.
  set (tail' := UrlParse.remove_unsafe tail) in *.
  (* the scheme *)
  replace ((scheme +:+ "://" +:+ host +:+ path) +:+ tail')
    with (scheme +:+ String ":" ("//" +:+ host +:+ path +:+ tail'))
    by by rewrite !append_assoc.
  unfold UrlParse.split_scheme.
  rewrite partition_first by by apply (all_contains lower_scheme_char).
  subst scheme. cbv beta iota.
  rewrite Hascii, Halpha, Hchars, Hlower. simpl PyStr.truthy. cbv beta iota.
  simpl andb. cbv beta iota.
  (* the authority *)
  change (PyStr.starts_slash_slash ("//" +:+ host +:+ path +:+ tail'))
    with true. cbv beta iota.
  change (UrlParse._splitnetloc ("//" +:+ host +:+ path +:+ tail'))
    with (UrlParse.split_at_delim (host +:+ path +:+ tail')).
  rewrite split_at_delim_host; [|done|].
  2:{ destruct path as [|d path].
      - rewrite append_empty_l.
        destruct Htail as [-> | [frag ->]]; [by left | right; by right].
      - right. left. by rewrite append_cons. }
  rewrite !(all_contains host_char _ host Hhost) by done.
  simpl.
  (* the fragment and the query *)
  assert (Hcheck : UrlParse._checknetloc host = Ok ()).
  { unfold UrlParse._checknetloc.
    by rewrite (host_isascii host Hhost), orb_true_r. }
  destruct Htail as [-> | [frag ->]].
  - rewrite append_empty_r, Hhash, Hquery, Hcheck. exists "". simpl.
    by rewrite Hsemi, andb_false_r.
  - rewrite contains_separator, partition_first by done.
    rewrite Hquery, Hcheck. exists frag. simpl.
    by rewrite Hsemi, andb_false_r.
Qed.

Lemma urlunparse_absolute (scheme host path : string) :
  absolute_url scheme host path = true ->
  UrlParse.urlunparse scheme host path "" "" ""
  = scheme +:+ "://" +:+ host +:+ path.
Proof.
  unfold absolute_url.
  intros [[[[[[[Hc0 _]%andb_true_iff Hhne]%andb_true_iff
               _]%andb_true_iff Hpath]%andb_true_iff
             _]%andb_true_iff _]%andb_true_iff _]%andb_true_iff.
  destruct scheme as [|c0 scheme]; [done |].
  unfold UrlParse.urlunparse, UrlParse.urlunsplit. simpl.
  rewrite Hhne. simpl.
  replace (PyStr.truthy path && negb (PyStr.starts_with "/" path))
    with false; [done |].
  destruct (PyStr.truthy path); [|done].
  simpl in Hpath. by rewrite Hpath.
Qed.

(** C6, as the code has it.  For the record of an accepted anchor, with
    [p] the parsed [href]:
    - the URL is [urlunparse] of the scheme, authority, path, parameters
      and query of [p] with an empty fragment; it is the text of the
      [href] before its first ["#"] when that text is a path-only
      reference or an absolute URL in the form [urlunparse] writes;
    - the file name is the percent-decoded text after the last ["/"] of
      the path, and the percent-decoded path when it has no ["/"];
    - the hashes are [{lower(algorithm): value}] for a fragment
      [algorithm=value], and are empty when there is no fragment;
    - the [href] ["../../packages/foo-1.0.tar.gz#sha256=abc123"] gives
      the file name ["foo-1.0.tar.gz"], the URL
      ["../../packages/foo-1.0.tar.gz"] and the hashes
      [{"sha256": "abc123"}]. *)
Theorem url_filename_hashes `{PyStdlib}
    (name : string) (html : list html_event) (d : ProjectDetails_1_0)
    (i : nat) (attrs : gmap string (option string)) (href : string) :
  from_project_details_html name html = Ok d ->
  accepted_anchors html !! i = Some (attrs, href) ->
  exists p f,
    UrlParse.urlparse href = Ok p /\
    files d !! i = Some f /\
    url f = UrlParse.urlunparse (UrlParse.scheme p) (UrlParse.netloc p)
              (UrlParse.path p) (UrlParse.params p) (UrlParse.query p) "" /\
    (path_only (strip_fragment href) = true -> url f = strip_fragment href) /\
    (forall scheme host path,
       strip_fragment href = scheme +:+ "://" +:+ host +:+ path ->
       absolute_url scheme host path = true ->
       url f = strip_fragment href) /\
    (forall dir last,
       UrlParse.path p = dir +:+ String "/" last ->
       PyStr.contains "/" last = false ->
       filename f = UrlParse.unquote last) /\
    (PyStr.contains "/" (UrlParse.path p) = false ->
     filename f = UrlParse.unquote (UrlParse.path p)) /\
    (forall algorithm value,
       UrlParse.fragment p = algorithm +:+ String "=" value ->
       PyStr.contains "=" algorithm = false ->
       hashes f = {[ lower algorithm := value ]}) /\
    (UrlParse.fragment p = "" -> hashes f = ∅) /\
    (href = "../../packages/foo-1.0.tar.gz#sha256=abc123" ->
     filename f = "foo-1.0.tar.gz" /\
     url f = "../../packages/foo-1.0.tar.gz" /\
     hashes f = {[ "sha256" := "abc123" ]}).
Proof.
  intros Hd Hi.
  destruct (file_of_anchor _ _ _ _ _ _ Hd Hi) as (al & Hal & Hf).
  apply archive_link_of_inv in Hal as (p & Hp & Hfn & Hurl & Hh & _).
  exists p, (file_details al). split; [done |]. split; [done |].
  simpl. rewrite Hfn, Hurl.
  destruct (strip_fragment_spec href) as (tail & Hhref & Hnohash & Htail).
  split; [done |]. repeat split.
  - intros Hplain.
    destruct (urlparse_path_only _ tail Hplain Hnohash Htail) as [frag Hp'].
    rewrite <- Hhref, Hp in Hp'. by injection Hp' as ->.
  - intros scheme host path Hpre Habs.
    assert (Hpath : PyStr.contains "#" path = false).
    { rewrite Hpre, !contains_append in Hnohash.
      by repeat (apply orb_false_iff in Hnohash as [_ Hnohash]). }
    destruct (urlparse_absolute scheme host path tail Habs Hpath Htail)
      as [frag Hp'].
    replace (scheme +:+ "://" +:+ host +:+ path +:+ tail) with href in Hp'.
    2:{ rewrite Hhref at 1. by rewrite Hpre, !append_assoc. }
    rewrite Hp in Hp'. injection Hp' as ->. simpl.
    by rewrite urlunparse_absolute.
  - intros dir last -> Hlast. by rewrite rpartition_last.
  - intros Hpath. by rewrite rpartition_absent.
  - intros algorithm value Hfrag Hno. rewrite Hfrag in Hh.
    assert (Ht : PyStr.truthy (algorithm +:+ String "=" value) = true)
      by by destruct algorithm.
    rewrite Ht, split1_first in Hh by done. by rewrite Hh.
  - intros Hfrag. rewrite Hfrag in Hh. simpl in Hh. by rewrite Hh.
  - subst href. vm_compute in Hp. by injection Hp as <-.
  - subst href. vm_compute in Hp. by injection Hp as <-.
  - subst href. vm_compute in Hp. injection Hp as <-.
    simpl in Hh. rewrite Hh. by rewrite lower_on_ascii.
Qed.

Lemma url_filename_hashes_witness :
  @from_project_details_html basic_stdlib "Foo_Bar" Sample.html
  = Ok Sample.details /\
  accepted_anchors Sample.html !! 0
  = Some (dict Sample.attrs_list, Sample.href) /\
  exists f,
    files Sample.details !! 0 = Some f /\
    filename f = "foo-1.0.tar.gz" /\
    url f = "../../packages/foo-1.0.tar.gz" /\
    hashes f = {[ "sha256" := "abc123" ]}.
Proof.
  split; [reflexivity |]. split; [reflexivity |].
  destruct (@url_filename_hashes basic_stdlib "Foo_Bar" Sample.html
              Sample.details 0 (dict Sample.attrs_list) Sample.href
              eq_refl eq_refl)
    as (p & f & _ & Hf & _ & _ & _ & _ & _ & _ & _ & Hexample).
  exists f. split; [exact Hf |]. exact (Hexample eq_refl).
Defined.

(** C6 as stated fails for the URL: [urlsplit] puts the scheme in lower
    case and [urlunparse] drops the ["?"] of an empty query, so that the
    URL of the record is not the text of the [href] before its ["#"]. *)
Lemma url_is_not_href_without_fragment :
  (exists f,
     @from_project_details_html basic_stdlib "foo"
       [StartTag "a"
          [("href", Some "HTTPS://example.com/foo-1.0.tar.gz#sha256=abc123")]]
     = Ok {| details_api_version := "1.0"; name := "foo"; files := [f] |} /\
     strip_fragment "HTTPS://example.com/foo-1.0.tar.gz#sha256=abc123"
     = "HTTPS://example.com/foo-1.0.tar.gz" /\
     url f = "https://example.com/foo-1.0.tar.gz" /\
     url f <> strip_fragment "HTTPS://example.com/foo-1.0.tar.gz#sha256=abc123")
  /\
  (exists f,
     @from_project_details_html basic_stdlib "foo"
       [StartTag "a" [("href", Some "foo-1.0.tar.gz?#sha256=abc123")]]
     = Ok {| details_api_version := "1.0"; name := "foo"; files := [f] |} /\
     strip_fragment "foo-1.0.tar.gz?#sha256=abc123" = "foo-1.0.tar.gz?" /\
     url f = "foo-1.0.tar.gz" /\
     url f <> strip_fragment "foo-1.0.tar.gz?#sha256=abc123").
Proof.
  split; eexists; (split; [reflexivity |]); (split; [reflexivity |]);
    (split; [reflexivity | discriminate]).
Qed.

(** * Further properties *)

(** ** The project page as a whole *)

(** [feed] runs [archive_link_of] over the accepted anchors, in order, and
    stops at the first one that raises. *)
Lemma feed_mapM `{PyStdlib} (html : list html_event) : forall acc,
  ArchiveLinkHTMLParser.feed acc html
  = mapM (fun a => ArchiveLinkHTMLParser.archive_link_of a.1 a.2)
         (accepted_anchors html)
    ≫= fun als => Ok (acc ++ als).
Proof.
  induction html as [|ev html IH]; intros acc.
  - simpl. by rewrite app_nil_r.
  - simpl ArchiveLinkHTMLParser.feed. unfold accepted_anchors. simpl omap.
    fold (accepted_anchors html).
    destruct (accepted_anchor ev) as [[attrs href]|] eqn:Hacc.
    + destruct ev as [tag attrs_list| |]; try done. simpl.
      rewrite (handle_starttag_accepted _ _ _ _ _ Hacc).
      destruct (ArchiveLinkHTMLParser.archive_link_of attrs href)
        as [al|e]; [|done].
      simpl. rewrite IH.
      destruct (mapM _ (accepted_anchors html)) as [als|e]; [|done].
      simpl. by rewrite <- app_assoc.
    + destruct ev as [tag attrs_list| |]; simpl.
      * rewrite handle_starttag_skipped by done. apply IH.
      * apply IH.
      * apply IH.
Qed.

(** X1. The result of [from_project_details_html] depends on the page through
    its accepted anchors only: text, end tags, tags other than [a] and
    anchors without a usable [href] make no difference, wherever they
    are. *)
Theorem details_depend_on_accepted_anchors `{PyStdlib}
    (name : string) (html html' : list html_event) :
  accepted_anchors html = accepted_anchors html' ->
  from_project_details_html name html = from_project_details_html name html'.
Proof.
  intros Heq. unfold from_project_details_html.
  by rewrite !feed_mapM, Heq.
Qed.

Lemma details_depend_on_accepted_anchors_witness :
  accepted_anchors Sample.html
  = accepted_anchors [StartTag "a" Sample.attrs_list] /\
  @from_project_details_html basic_stdlib "Foo_Bar" Sample.html
  = @from_project_details_html basic_stdlib "Foo_Bar"
      [StartTag "a" Sample.attrs_list].
Proof.
  split; [reflexivity |].
  apply (@details_depend_on_accepted_anchors basic_stdlib "Foo_Bar"
           Sample.html [StartTag "a" Sample.attrs_list]).
  reflexivity.
Defined.

Lemma mapM_result_app {A B} (f : A -> result B) (l1 l2 : list A) :
  mapM f (l1 ++ l2)
  = mapM f l1 ≫= fun k1 => mapM f l2 ≫= fun k2 => Ok (k1 ++ k2).
Proof.
  induction l1 as [|x l1 IH]; simpl.
  - by destruct (mapM f l2).
  - destruct (f x) as [y|e]; [|done]. simpl. rewrite IH.
    destruct (mapM f l1) as [k1|e]; [|done]. simpl.
    by destruct (mapM f l2).
Qed.

(** X2. Parsing two pieces of a page one after the other: the page parses
    when both pieces do, its files are the files of the first piece
    followed by those of the second, and an exception of either piece is
    an exception of the page. *)
Theorem details_of_concatenation `{PyStdlib}
    (name : string) (html1 html2 : list html_event) :
  from_project_details_html name (html1 ++ html2)
  = from_project_details_html name html1 ≫= fun d1 =>
    from_project_details_html name html2 ≫= fun d2 =>
    Ok {| details_api_version := "1.0";
          name := canonicalize_name name;
          files := files d1 ++ files d2 |}.
Proof.
  unfold from_project_details_html. rewrite !feed_mapM.
  unfold accepted_anchors. rewrite omap_app, mapM_result_app.
  fold (accepted_anchors html1). fold (accepted_anchors html2).
  destruct (mapM _ (accepted_anchors html1)) as [k1|e]; [|done]. simpl.
  destruct (mapM _ (accepted_anchors html2)) as [k2|e]; [|done]. simpl.
  by rewrite fmap_app.
Qed.

Lemma archive_link_of_Ok_iff `{PyStdlib} attrs href :
  (exists al, ArchiveLinkHTMLParser.archive_link_of attrs href = Ok al)
  <-> exists p, UrlParse.urlparse href = Ok p /\
                (UrlParse.fragment p = "" \/
                 PyStr.contains "=" (UrlParse.fragment p) = true).
Proof.
  split.
  - intros [al Hal]. pose proof Hal as Hal'.
    apply archive_link_of_inv in Hal' as (p & Hp & _).
    exists p. split; [done |].
    destruct (UrlParse.fragment p) as [|c frag] eqn:Hfrag; [by left |].
    right. destruct (PyStr.contains "=" (String c frag)) eqn:Hc; [done |].
    rewrite (archive_link_of_malformed attrs href p) in Hal; try done.
    + by rewrite Hfrag.
    + by rewrite Hfrag.
  - intros (p & Hp & Hfrag).
    unfold ArchiveLinkHTMLParser.archive_link_of. rewrite Hp, bind_Ok.
    destruct (PyStr.rpartition "/" (UrlParse.path p)) as [[dir sep] raw].
    destruct Hfrag as [-> | Hc]; [by eexists |].
    destruct (partition_present _ _ Hc) as (a & b & Hab & Ha & _).
    rewrite Hab, split1_first by done.
    destruct (PyStr.truthy (a +:+ String "=" b)); by eexists.
Qed.

Lemma details_returns_iff `{PyStdlib}
    (name : string) (html : list html_event) :
  (exists d, from_project_details_html name html = Ok d)
  <-> Forall (fun a => exists p,
                UrlParse.urlparse a.2 = Ok p /\
                (UrlParse.fragment p = "" \/
                 PyStr.contains "=" (UrlParse.fragment p) = true))
             (accepted_anchors html).
Proof.
  unfold from_project_details_html. rewrite feed_mapM.
  induction (accepted_anchors html) as [|[attrs href] anchors IH]; simpl.
  - split; [by constructor | by eexists].
  - rewrite Forall_cons, <- IH, <- (archive_link_of_Ok_iff attrs href).
    simpl. destruct (ArchiveLinkHTMLParser.archive_link_of attrs href)
      as [al|e]; simpl.
    + destruct (mapM _ anchors) as [als|e]; simpl.
      * split; [intros _; split; by eexists | by eexists].
      * split; [by intros [? ?] | by intros [_ [? ?]]].
    + split; [by intros [? ?] | by intros [[? ?] _]].
Qed.

(** X3. When [from_project_details_html] returns: exactly when
    [HTMLParser] reads the page to its end, and the [href] of every
    accepted anchor is parsed by [urlparse] and has a fragment that is
    empty or contains ["="].  In every other case it raises: the exception
    of the first anchor that fails, or else the [AssertionError] of the
    tokenizer. *)
Theorem details_parse_condition `{PyStdlib}
    (name : string) (html : list html_event) (reaches_end : bool) :
  ((exists d, from_project_details_html_upto name html reaches_end = Ok d)
   <-> reaches_end = true /\
       Forall (fun a => exists p,
                 UrlParse.urlparse a.2 = Ok p /\
                 (UrlParse.fragment p = "" \/
                  PyStr.contains "=" (UrlParse.fragment p) = true))
              (accepted_anchors html)) /\
  ((exists d, from_project_details_html_upto name html reaches_end = Ok d)
   \/ raises (from_project_details_html_upto name html reaches_end)) /\
  from_project_details_html_upto name html false
  = (_ ← from_project_details_html name html; Raise AssertionError).
Proof.
  split; [|split].
  - destruct reaches_end; simpl.
    + rewrite details_returns_iff. split; [by intros ? | by intros [_ ?]].
    + split; [|by intros [? _]]. intros [d Hd].
      by destruct (ArchiveLinkHTMLParser.feed [] html).
  - destruct (from_project_details_html_upto name html reaches_end)
      as [d|e]; [left | right]; by eexists.
  - unfold from_project_details_html. simpl.
    by destruct (ArchiveLinkHTMLParser.feed [] html).
Qed.

(** ** The fields of a record *)

Lemma file_of_some_anchor `{PyStdlib} name html d f :
  from_project_details_html name html = Ok d ->
  f ∈ files d ->
  exists attrs href al,
    ArchiveLinkHTMLParser.archive_link_of attrs href = Ok al /\
    f = file_details al.
Proof.
  unfold from_project_details_html. intros Hd Hf.
  apply bind_Ok_inv in Hd as (links & Hfeed & [= <-]). simpl in Hf.
  apply feed_Ok_inv in Hfeed as (als & -> & Hals). simpl in Hf.
  apply list_elem_of_fmap in Hf as (al & -> & Hal).
  apply list_elem_of_lookup in Hal as [i Hi].
  destruct (Forall2_lookup_r _ _ _ _ _ Hals Hi) as ([attrs href] & _ & Hok).
  by exists attrs, href, al.
Qed.

(** X4. ["gpg-sig"] is in the record of an accepted anchor exactly when the
    anchor has a [data-gpg-sig] attribute, with or without a value; it is
    [True] for the value ["true"] and [False] for anything else. *)
Theorem gpg_sig_field `{PyStdlib}
    (name : string) (html : list html_event) (d : ProjectDetails_1_0)
    (i : nat) (attrs : gmap string (option string)) (href : string) :
  from_project_details_html name html = Ok d ->
  accepted_anchors html !! i = Some (attrs, href) ->
  exists f,
    files d !! i = Some f /\
    (attrs !! "data-gpg-sig" = None -> gpg_sig f = None) /\
    (attrs !! "data-gpg-sig" = Some (Some "true") -> gpg_sig f = Some true) /\
    (forall v, attrs !! "data-gpg-sig" = Some v -> v <> Some "true" ->
       gpg_sig f = Some false).
Proof.
  intros Hd Hi.
  destruct (file_of_anchor _ _ _ _ _ _ Hd Hi) as (al & Hal & Hf).
  apply archive_link_of_inv in Hal as (p & _ & _ & _ & _ & _ & Hg & _).
  exists (file_details al). split; [done |]. simpl. rewrite Hg.
  repeat split; try (intros ->; reflexivity).
  intros v -> Hv. simpl. by rewrite bool_decide_eq_false_2.
Qed.

Lemma gpg_sig_field_witness :
  @from_project_details_html basic_stdlib "Foo_Bar" Sample.html
  = Ok Sample.details /\
  accepted_anchors Sample.html !! 0
  = Some (dict Sample.attrs_list, Sample.href) /\
  exists f,
    files Sample.details !! 0 = Some f /\ gpg_sig f = Some true.
Proof.
  split; [reflexivity |]. split; [reflexivity |].
  destruct (@gpg_sig_field basic_stdlib "Foo_Bar" Sample.html
              Sample.details 0 (dict Sample.attrs_list) Sample.href
              eq_refl eq_refl) as (f & Hf & _ & Htrue & _).
  exists f. split; [exact Hf |]. exact (Htrue eq_refl).
Defined.

(** X5. The names of the hash algorithms are in lower case: a key of
    ["hashes"], and a key of a ["dist-info-metadata"] mapping, is its own
    [lower()]; the key of a ["dist-info-metadata"] mapping is not
    empty. *)
Theorem hash_names_lower_case `{PyStdlib}
    (name : string) (html : list html_event) (d : ProjectDetails_1_0)
    (f : ProjectFileDetails_1_0) :
  from_project_details_html name html = Ok d ->
  f ∈ files d ->
  (forall k v, hashes f !! k = Some v -> lower k = k) /\
  (forall m k v,
     dist_info_metadata f = Some (MetaHashes m) -> m !! k = Some v ->
     lower k = k /\ k <> "").
Proof.
  intros Hd Hf.
  destruct (file_of_some_anchor _ _ _ _ Hd Hf) as (attrs & href & al & Hal & ->).
  apply archive_link_of_inv in Hal
    as (p & _ & _ & _ & Hh & _ & _ & _ & Hm).
  simpl. split.
  - intros k v.
    destruct (al_hashes al) as [[algo value]|]; [|by rewrite lookup_empty].
    intros [<- _]%lookup_singleton_Some.
    destruct (PyStr.truthy (UrlParse.fragment p)); [|done].
    destruct (PyStr.split1 "=" (UrlParse.fragment p))
      as [|a [|b [|? ?]]]; try done.
    injection Hh as -> _. apply lower_lower.
  - intros m k v. rewrite Hm.
    destruct (attrs !! "data-dist-info-metadata"); [|done]. simpl.
    destruct (get_truthy attrs "data-dist-info-metadata") as [found|];
      [|done].
    destruct (negb (PyStr.eqb found "true")); [|done].
    destruct (PyStr.truthy (lower (PyStr.partition "=" found).1.1))
      eqn:Ht; [|done].
    intros [= <-] [<- _]%lookup_singleton_Some.
    split; [apply lower_lower | by apply truthy_true].
Qed.

Lemma hash_names_lower_case_witness :
  @from_project_details_html basic_stdlib "Foo_Bar" Sample.html
  = Ok Sample.details /\
  Sample.file ∈ files Sample.details /\
  (forall k v, hashes Sample.file !! k = Some v ->
     @lower basic_stdlib k = k).
Proof.
  split; [reflexivity |].
  assert (Hin : Sample.file ∈ files Sample.details) by apply list_elem_of_here.
  split; [exact Hin |].
  apply (@hash_names_lower_case basic_stdlib "Foo_Bar" Sample.html
           Sample.details Sample.file eq_refl Hin).
Defined.

(** X6. Two links of a page: with the same [href] they have the same file
    name, URL and hashes, whatever their other attributes; and each
    optional field is the same as soon as the attribute it comes from is
    the same, whatever the [href] and the other attributes. *)
Theorem fields_are_independent `{PyStdlib}
    (name : string) (html : list html_event) (d : ProjectDetails_1_0)
    (i j : nat) (attrs1 attrs2 : gmap string (option string))
    (href1 href2 : string) :
  from_project_details_html name html = Ok d ->
  accepted_anchors html !! i = Some (attrs1, href1) ->
  accepted_anchors html !! j = Some (attrs2, href2) ->
  exists f1 f2,
    files d !! i = Some f1 /\ files d !! j = Some f2 /\
    (href1 = href2 ->
     filename f1 = filename f2 /\ url f1 = url f2 /\ hashes f1 = hashes f2) /\
    (attrs1 !! "data-requires-python" = attrs2 !! "data-requires-python" ->
     requires_python f1 = requires_python f2) /\
    (attrs1 !! "data-gpg-sig" = attrs2 !! "data-gpg-sig" ->
     gpg_sig f1 = gpg_sig f2) /\
    (attrs1 !! "data-yanked" = attrs2 !! "data-yanked" ->
     yanked f1 = yanked f2) /\
    (attrs1 !! "data-dist-info-metadata" = attrs2 !! "data-dist-info-metadata" ->
     dist_info_metadata f1 = dist_info_metadata f2).
Proof.
  intros Hd Hi Hj.
  destruct (file_of_anchor _ _ _ _ _ _ Hd Hi) as (al1 & Hal1 & Hf1).
  destruct (file_of_anchor _ _ _ _ _ _ Hd Hj) as (al2 & Hal2 & Hf2).
  apply archive_link_of_inv in Hal1
    as (p1 & Hp1 & Hfn1 & Hurl1 & Hh1 & Hrp1 & Hg1 & Hy1 & Hm1).
  apply archive_link_of_inv in Hal2
    as (p2 & Hp2 & Hfn2 & Hurl2 & Hh2 & Hrp2 & Hg2 & Hy2 & Hm2).
  exists (file_details al1), (file_details al2).
  split; [done |]. split; [done |]. simpl.
  rewrite Hfn1, Hfn2, Hurl1, Hurl2, Hrp1, Hrp2, Hg1, Hg2, Hy1, Hy2, Hm1, Hm2.
  unfold get_truthy. split; [|repeat split; by intros ->].
  intros <-. rewrite Hp1 in Hp2. injection Hp2 as <-.
  split; [done |]. split; [done |].
  destruct (PyStr.truthy (UrlParse.fragment p1)).
  - destruct (PyStr.split1 "=" (UrlParse.fragment p1))
      as [|a [|b [|? ?]]]; try done. by rewrite Hh1, Hh2.
  - by rewrite Hh1, Hh2.
Qed.

Lemma fields_are_independent_witness :
  let html :=
    [StartTag "a" [("href", Some "foo-1.0.tar.gz#sha256=abc");
                   ("data-yanked", None)];
     StartTag "a" [("href", Some "foo-1.0.tar.gz#sha256=abc");
                   ("data-gpg-sig", Some "true")]] in
  exists d f1 f2,
    @from_project_details_html basic_stdlib "foo" html = Ok d /\
    files d !! 0 = Some f1 /\ files d !! 1 = Some f2 /\
    filename f1 = filename f2 /\ url f1 = url f2 /\ hashes f1 = hashes f2 /\
    requires_python f1 = requires_python f2.
Proof.
  intros html.
  destruct (from_project_details_html (H := basic_stdlib) "foo" html)
    as [d|e] eqn:Hd; [|discriminate Hd].
  destruct (@fields_are_independent basic_stdlib "foo" html d 0 1
              (dict [("href", Some "foo-1.0.tar.gz#sha256=abc");
                     ("data-yanked", None)])
              (dict [("href", Some "foo-1.0.tar.gz#sha256=abc");
                     ("data-gpg-sig", Some "true")])
              "foo-1.0.tar.gz#sha256=abc" "foo-1.0.tar.gz#sha256=abc"
              Hd eq_refl eq_refl)
    as (f1 & f2 & Hf1 & Hf2 & Hhref & Hrp & _).
  destruct (Hhref eq_refl) as (Hfn & Hurl & Hh).
  exists d, f1, f2. repeat split; try done. by apply Hrp.
Defined.

(** ** The URL of a record has no fragment *)

Lemma lower_ascii_hash (c : ascii) :
  Ascii.eqb (PyStr.lower_ascii c) "#" = Ascii.eqb c "#".
Proof. destruct c as [[] [] [] [] [] [] [] []]; reflexivity. Qed.

Lemma ascii_lower_contains_hash (s : string) :
  PyStr.contains "#" (PyStr.ascii_lower s) = PyStr.contains "#" s.
Proof.
  induction s as [|c s IH]; [done |]. simpl.
  by rewrite lower_ascii_hash, IH.
Qed.

Lemma scheme_char_ascii (c : ascii) :
  UrlParse.scheme_char c = true -> PyStr.is_ascii c = true.
Proof. destruct c as [[] [] [] [] [] [] [] []]; by compute. Qed.

Lemma scheme_chars_ascii (s : string) :
  PyStr.all UrlParse.scheme_char s = true -> PyStr.isascii s = true.
Proof.
  induction s as [|c s IH]; [done |]. simpl.
  intros [Hc Hs]%andb_true_iff. by rewrite (scheme_char_ascii c Hc), IH.
Qed.

Lemma split_scheme_no_hash `{PyStdlib} (url scheme rest : string) :
  UrlParse.split_scheme url = (scheme, rest) ->
  PyStr.contains "#" scheme = false.
Proof.
  unfold UrlParse.split_scheme.
  destruct (PyStr.partition ":" url) as [[before sep] after].
  destruct before as [|c0 before]; [by intros [= <- _] |].
  destruct (PyStr.truthy sep && PyStr.is_ascii c0 && PyStr.is_alpha c0
            && PyStr.all UrlParse.scheme_char (String c0 before)) eqn:Hc;
    [|by intros [= <- _]].
  intros [= <- _]. apply andb_true_iff in Hc as [_ Hall].
  rewrite lower_on_ascii by by apply scheme_chars_ascii.
  etrans; [apply (ascii_lower_contains_hash (String c0 before)) |].
  by apply (all_contains UrlParse.scheme_char).
Qed.

Lemma split_at_delim_no_hash (url : string) :
  PyStr.contains "#" (UrlParse.split_at_delim url).1 = false.
Proof.
  induction url as [|c url IH]; [done |]. simpl.
  destruct (Ascii.eqb c "/" || Ascii.eqb c "?" || Ascii.eqb c "#") eqn:Hc;
    [done |].
  destruct (UrlParse.split_at_delim url) as [a b]. simpl in *.
  apply orb_false_iff in Hc as [_ ->]. done.
Qed.

Lemma _splitnetloc_no_hash (url : string) :
  PyStr.contains "#" (UrlParse._splitnetloc url).1 = false.
Proof.
  destruct url as [|a [|b url]]; try done. apply split_at_delim_no_hash.
Qed.

(** What [urlsplit] returns beside the fragment has no ["#"]. *)
Lemma urlsplit_no_hash `{PyStdlib} (url scheme netloc path query frag : string) :
  UrlParse.urlsplit url = Ok (scheme, netloc, path, query, frag) ->
  PyStr.contains "#" scheme = false /\ PyStr.contains "#" netloc = false /\
  PyStr.contains "#" path = false /\ PyStr.contains "#" query = false.
Proof.
  unfold UrlParse.urlsplit.
  destruct (UrlParse.split_scheme _) as [s0 url2] eqn:Hs.
  apply split_scheme_no_hash in Hs.
  intros ([n0 url3] & Hn & Hrest)%bind_Ok_inv.
  assert (Hn0 : PyStr.contains "#" n0 = false).
  { destruct (PyStr.starts_slash_slash url2); [|by injection Hn as <- _].
    pose proof (_splitnetloc_no_hash url2) as Hnet.
    destruct (UrlParse._splitnetloc url2) as [n1 u1].
    destruct (_ || _); [done |].
    by apply bind_Ok_inv in Hn as (? & _ & [= <- _]). }
  clear Hn. revert Hrest.
  assert (Hfrag : exists url4 fr,
            (if PyStr.contains "#" url3
             then let '(a, _, b) := PyStr.partition "#" url3 in (a, b)
             else (url3, "")) = (url4, fr) /\
            PyStr.contains "#" url4 = false).
  { destruct (PyStr.contains "#" url3) eqn:Hc; [|by eexists _, _].
    destruct (partition_spec "#" url3) as (a & sep & b & -> & _ & Ha & _).
    by eexists _, _. }
  destruct Hfrag as (url4 & fr & -> & Hurl4).
  assert (Hquery : exists url5 q,
            (if PyStr.contains "?" url4
             then let '(a, _, b) := PyStr.partition "?" url4 in (a, b)
             else (url4, "")) = (url5, q) /\
            PyStr.contains "#" url5 = false /\ PyStr.contains "#" q = false).
  { destruct (PyStr.contains "?" url4) eqn:Hc; [|by eexists _, _].
    destruct (partition_spec "?" url4) as (a & sep & b & -> & Heq & _ & _).
    rewrite Heq, !contains_append in Hurl4.
    apply orb_false_iff in Hurl4 as [Ha [_ Hb]%orb_false_iff].
    by eexists _, _. }
  destruct Hquery as (url5 & q & -> & Hurl5 & Hq).
  by intros (? & _ & [= <- <- <- <- _])%bind_Ok_inv.
Qed.

Lemma _splitparams_no_hash (url : string) :
  PyStr.contains "#" url = false ->
  PyStr.contains "#" (UrlParse._splitparams url).1 = false /\
  PyStr.contains "#" (UrlParse._splitparams url).2 = false.
Proof.
  intros Hurl. unfold UrlParse._splitparams.
  destruct (PyStr.contains "/" url).
  - destruct (rpartition_spec "/" url) as (dir & sep & last & -> & Heq & _ & _).
    rewrite Heq, !contains_append in Hurl.
    apply orb_false_iff in Hurl as [Hdir [Hsep Hlast]%orb_false_iff].
    destruct (PyStr.contains ";" last).
    + destruct (partition_spec ";" last) as (a & sep' & b & -> & Heq' & _ & _).
      rewrite Heq', !contains_append in Hlast.
      apply orb_false_iff in Hlast as [Ha [_ Hb]%orb_false_iff].
      simpl. by rewrite !contains_append, Hdir, Ha.
    + simpl. subst url. by rewrite !contains_append, Hdir, Hsep, Hlast.
  - destruct (partition_spec ";" url) as (a & sep & b & -> & Heq & _ & _).
    rewrite Heq, !contains_append in Hurl.
    by apply orb_false_iff in Hurl as [Ha [_ Hb]%orb_false_iff].
Qed.

Lemma urlparse_no_hash `{PyStdlib} (url : string) (p : UrlParse.ParseResult) :
  UrlParse.urlparse url = Ok p ->
  PyStr.contains "#" (UrlParse.scheme p) = false /\
  PyStr.contains "#" (UrlParse.netloc p) = false /\
  PyStr.contains "#" (UrlParse.path p) = false /\
  PyStr.contains "#" (UrlParse.params p) = false /\
  PyStr.contains "#" (UrlParse.query p) = false.
Proof.
  unfold UrlParse.urlparse.
  intros ([[[[scheme netloc] path] query] frag] & Hsplit & Hp)%bind_Ok_inv.
  apply urlsplit_no_hash in Hsplit as (Hs & Hn & Hpath & Hq).
  destruct (_splitparams_no_hash path Hpath) as [Hp1 Hp2].
  destruct (bool_decide (scheme ∈ UrlParse.uses_params)
            && PyStr.contains ";" path).
  - destruct (UrlParse._splitparams path) as [path' params].
    by injection Hp as <-.
  - by injection Hp as <-.
Qed.

Lemma urlunparse_no_hash (scheme netloc path params query : string) :
  PyStr.contains "#" scheme = false -> PyStr.contains "#" netloc = false ->
  PyStr.contains "#" path = false -> PyStr.contains "#" params = false ->
  PyStr.contains "#" query = false ->
  PyStr.contains "#"
    (UrlParse.urlunparse scheme netloc path params query "") = false.
Proof.
  intros Hs Hn Hp Hpa Hq.
  unfold UrlParse.urlunparse, UrlParse.urlunsplit. simpl PyStr.truthy.
  repeat match goal with
         | |- context [if ?b then _ else _] => destruct b
         end;
    rewrite ?contains_append, ?Hs, ?Hn, ?Hp, ?Hpa, ?Hq; reflexivity.
Qed.

(** X7. The URL of a record never contains ["#"]: the fragment of the [href],
    and the ["#"] before it, are left out. *)
Theorem url_has_no_fragment `{PyStdlib}
    (name : string) (html : list html_event) (d : ProjectDetails_1_0)
    (f : ProjectFileDetails_1_0) :
  from_project_details_html name html = Ok d ->
  f ∈ files d ->
  PyStr.contains "#" (url f) = false.
Proof.
  intros Hd Hf.
  destruct (file_of_some_anchor _ _ _ _ Hd Hf) as (attrs & href & al & Hal & ->).
  apply archive_link_of_inv in Hal as (p & Hp & _ & Hurl & _).
  simpl. rewrite Hurl.
  apply urlparse_no_hash in Hp as (Hs & Hn & Hpath & Hpa & Hq).
  by apply urlunparse_no_hash.
Qed.

Lemma url_has_no_fragment_witness :
  @from_project_details_html basic_stdlib "Foo_Bar" Sample.html
  = Ok Sample.details /\
  Sample.file ∈ files Sample.details /\
  PyStr.contains "#" (url Sample.file) = false.
Proof.
  split; [reflexivity |].
  assert (Hin : Sample.file ∈ files Sample.details) by apply list_elem_of_here.
  split; [exact Hin |].
  exact (@url_has_no_fragment basic_stdlib "Foo_Bar" Sample.html
           Sample.details Sample.file eq_refl Hin).
Defined.

(** ** The file name of a path without percent escapes *)

Lemma unquote_no_percent `{PyStdlib} (s : string) :
  PyStr.contains "%" s = false -> UrlParse.unquote s = s.
Proof. intros Hs. unfold UrlParse.unquote. by rewrite Hs. Qed.

(** X8. When the path of the [href] of an accepted anchor has no ["%"], the
    file name is the path's text after its last ["/"] as it is: the path
    is a directory part, empty or ending with ["/"], followed by the file
    name, and the file name has no ["/"]. *)
Theorem filename_of_plain_path `{PyStdlib}
    (name : string) (html : list html_event) (d : ProjectDetails_1_0)
    (i : nat) (attrs : gmap string (option string)) (href : string)
    (p : UrlParse.ParseResult) :
  from_project_details_html name html = Ok d ->
  accepted_anchors html !! i = Some (attrs, href) ->
  UrlParse.urlparse href = Ok p ->
  PyStr.contains "%" (UrlParse.path p) = false ->
  exists f dir,
    files d !! i = Some f /\
    UrlParse.path p = dir +:+ filename f /\
    (dir = "" \/ PyStr.endswith "/" dir = true) /\
    PyStr.contains "/" (filename f) = false.
Proof.
  intros Hd Hi Hp Hpercent.
  destruct (file_of_anchor _ _ _ _ _ _ Hd Hi) as (al & Hal & Hf).
  apply archive_link_of_inv in Hal as (p' & Hp' & Hfn & _).
  rewrite Hp in Hp'. injection Hp' as <-.
  destruct (rpartition_spec "/" (UrlParse.path p))
    as (a & sep & b & Hrp & Heq & Hb & Hsep).
  rewrite Hrp in Hfn. simpl in Hfn.
  assert (Hbp : PyStr.contains "%" b = false).
  { rewrite Heq, !contains_append in Hpercent.
    by apply orb_false_iff in Hpercent as [_ [_ ?]%orb_false_iff]. }
  rewrite unquote_no_percent in Hfn by done.
  exists (file_details al), (a +:+ sep). split; [done |]. simpl.
  rewrite Hfn. split; [by rewrite append_assoc |]. split; [|done].
  destruct Hsep as [-> | [-> ->]]; [right | by left].
  apply endswith_append_char.
Qed.

Lemma filename_of_plain_path_witness :
  @from_project_details_html basic_stdlib "Foo_Bar" Sample.html
  = Ok Sample.details /\
  accepted_anchors Sample.html !! 0
  = Some (dict Sample.attrs_list, Sample.href) /\
  @UrlParse.urlparse basic_stdlib Sample.href = Ok Sample.parsed_href /\
  PyStr.contains "%" (UrlParse.path Sample.parsed_href) = false /\
  exists f dir,
    files Sample.details !! 0 = Some f /\
    UrlParse.path Sample.parsed_href = dir +:+ filename f /\
    (dir = "" \/ PyStr.endswith "/" dir = true) /\
    PyStr.contains "/" (filename f) = false.
Proof.
  split; [reflexivity |]. split; [reflexivity |]. split; [reflexivity |].
  split; [reflexivity |].
  apply (@filename_of_plain_path basic_stdlib "Foo_Bar" Sample.html
           Sample.details 0 (dict Sample.attrs_list) Sample.href
           Sample.parsed_href);
    reflexivity.
Defined.

(** ** Repeated attributes *)

Lemma dict_foldl_other (l : list (string * option string)) (k : string) :
  k ∉ l.*1 -> forall m : gmap string (option string),
  foldl (fun d kv => <[kv.1 := kv.2]> d) m l !! k = m !! k.
Proof.
  induction l as [|[k' v'] l IH]; intros Hk m; [done |].
  rewrite fmap_cons, not_elem_of_cons in Hk. destruct Hk as [Hne Hk].
  simpl. rewrite IH by done. by rewrite lookup_insert_ne.
Qed.

(** X9. When a start tag [a] repeats the [href] attribute, the parser
    reads the last occurrence: the record of the anchor is that of the
    last [href], and when the last [href] is empty the anchor gives no
    record, whatever the earlier ones are. *)
Theorem last_attribute_wins `{PyStdlib}
    (name : string) (l1 l2 : list (string * option string)) (href : string)
    (d : ProjectDetails_1_0) :
  "href" ∉ l2.*1 ->
  from_project_details_html name
    [StartTag "a" (l1 ++ ("href", Some href) :: l2)] = Ok d ->
  (href = "" -> files d = []) /\
  (href <> "" ->
   exists p f,
     UrlParse.urlparse href = Ok p /\
     files d = [f] /\
     url f = UrlParse.urlunparse (UrlParse.scheme p) (UrlParse.netloc p)
               (UrlParse.path p) (UrlParse.params p) (UrlParse.query p) "" /\
     filename f
     = UrlParse.unquote (PyStr.rpartition "/" (UrlParse.path p)).2).
Proof.
  intros Hk Hd.
  assert (Hlast : dict (l1 ++ ("href", Some href) :: l2) !! "href"
                  = Some (Some href)).
  { unfold dict. rewrite foldl_app. simpl.
    rewrite dict_foldl_other by done. apply lookup_insert_eq. }
  unfold from_project_details_html in Hd.
  apply bind_Ok_inv in Hd as (links & Hfeed & [= <-]). simpl in Hfeed |- *.
  apply bind_Ok_inv in Hfeed as (links' & Hstart & [= <-]).
  unfold ArchiveLinkHTMLParser.handle_starttag in Hstart.
  change (PyStr.eqb "a" "a") with true in Hstart. simpl in Hstart.
  unfold get_truthy in Hstart. rewrite Hlast in Hstart. split.
  - intros ->. simpl in Hstart. by injection Hstart as <-.
  - intros Hne%truthy_true. rewrite Hne in Hstart.
    apply bind_Ok_inv in Hstart as (al & Hal & [= <-]).
    apply archive_link_of_inv in Hal as (p & Hp & Hfn & Hurl & _).
    exists p, (file_details al). simpl. by rewrite Hfn, Hurl.
Qed.

Lemma last_attribute_wins_witness :
  let d :=
    {| details_api_version := "1.0"; name := "foo";
       files := [ {| filename := "new-1.0.tar.gz"; url := "new-1.0.tar.gz";
                     hashes := ∅; requires_python := None;
                     dist_info_metadata := None; gpg_sig := None;
                     yanked := Some (PyBool true) |} ] |} in
  ("href" ∉ ([("data-yanked", None)] : list (string * option string)).*1) /\
  @from_project_details_html basic_stdlib "foo"
    [StartTag "a" ([("href", Some "old-1.0.tar.gz")]
                   ++ ("href", Some "new-1.0.tar.gz")
                   :: [("data-yanked", None)])] = Ok d /\
  ("new-1.0.tar.gz" <> "" ->
   exists p f,
     @UrlParse.urlparse basic_stdlib "new-1.0.tar.gz" = Ok p /\
     files d = [f] /\
     url f = UrlParse.urlunparse (UrlParse.scheme p) (UrlParse.netloc p)
               (UrlParse.path p) (UrlParse.params p) (UrlParse.query p) "" /\
     filename f
     = @UrlParse.unquote basic_stdlib
         (PyStr.rpartition "/" (UrlParse.path p)).2).
Proof.
  intros d.
  assert (Hk : "href"
               ∉ ([("data-yanked", None)] : list (string * option string)).*1).
  { simpl. rewrite not_elem_of_cons. split; [discriminate |].
    apply not_elem_of_nil. }
  split; [exact Hk |]. split; [reflexivity |].
  apply (@last_attribute_wins basic_stdlib "foo"
           [("href", Some "old-1.0.tar.gz")] [("data-yanked", None)]
           "new-1.0.tar.gz" d Hk eq_refl).
Defined.

(** ** The index page as a whole *)

Section IndexParser.
Import SimpleIndexHTMLParser.

(** The names collected from a page do not depend on the names collected
    before it, and the anchor flag after it does not either. *)
Lemma index_feed_names (html : list html_event) : forall st,
  feed st html
  = {| _parsing_anchor :=
         _parsing_anchor
           (feed {| _parsing_anchor := _parsing_anchor st; names := [] |} html);
       names :=
         names st
         ++ names
              (feed {| _parsing_anchor := _parsing_anchor st; names := [] |}
                 html) |}.
Proof.
  induction html as [|ev html IH]; intros [b ns].
  - simpl. by rewrite app_nil_r.
  - simpl feed. rewrite IH. symmetry. rewrite IH. symmetry.
    destruct ev as [tag attrs_list|tag|data]; simpl.
    + unfold handle_starttag. by destruct (negb (PyStr.eqb tag "a")).
    + unfold handle_endtag. by destruct (negb (PyStr.eqb tag "a")).
    + unfold handle_data. simpl. destruct b; simpl; [|done].
      by rewrite <- app_assoc.
Qed.

Lemma index_feed_inside (body : list html_event) :
  Forall (fun ev => is_anchor_tag ev = false) body ->
  forall ns,
    feed {| _parsing_anchor := true; names := ns |} body
    = {| _parsing_anchor := true; names := ns ++ data_texts body |}.
Proof.
  induction 1 as [|ev body Hev _ IH]; intros ns.
  - simpl. by rewrite app_nil_r.
  - destruct ev as [tag attrs_list|tag|data]; simpl in Hev |- *.
    + unfold handle_starttag. rewrite Hev. apply IH.
    + unfold handle_endtag. rewrite Hev. apply IH.
    + unfold handle_data. simpl. rewrite IH.
      unfold data_texts. simpl. by rewrite <- app_assoc.
Qed.

Lemma index_feed_outside (html : list html_event) :
  Forall (fun ev => forall attrs_list, ev <> StartTag "a" attrs_list) html ->
  forall ns,
    feed {| _parsing_anchor := false; names := ns |} html
    = {| _parsing_anchor := false; names := ns |}.
Proof.
  induction 1 as [|ev html Hev _ IH]; intros ns; [done |].
  destruct ev as [tag attrs_list|tag|data]; simpl.
  - unfold handle_starttag. unfold PyStr.eqb. case_bool_decide as Htag.
    + subst tag. by destruct (Hev attrs_list).
    + apply IH.
  - unfold handle_endtag. destruct (negb (PyStr.eqb tag "a")); apply IH.
  - apply IH.
Qed.

Lemma index_handle_without_attrs st ev :
  handle st (without_attrs ev) = handle st ev.
Proof. by destruct ev. Qed.

Lemma index_feed_sublist (html : list html_event) : forall st,
  exists l, names (feed st html) = names st ++ l /\
            l `sublist_of` data_texts html.
Proof.
  induction html as [|ev html IH]; intros st.
  - exists []. simpl. by rewrite app_nil_r.
  - simpl feed. destruct (IH (handle st ev)) as (l & -> & Hl).
    destruct ev as [tag attrs_list|tag|data]; simpl.
    + exists l. split; [|done].
      unfold handle_starttag. by destruct (negb (PyStr.eqb tag "a")).
    + exists l. split; [|done].
      unfold handle_endtag. by destruct (negb (PyStr.eqb tag "a")).
    + unfold handle_data, data_texts. simpl.
      destruct (_parsing_anchor st); simpl.
      * exists (data :: l). split; [by rewrite <- app_assoc |].
        by apply sublist_skip.
      * exists l. split; [done |]. by apply sublist_cons.
Qed.

End IndexParser.

(** X10. The projects of an index page are texts of the page, as they are and
    in document order: no name is made up, changed, repeated or moved. *)
Theorem index_names_are_texts (html : list html_event) :
  projects (from_project_index_html html) `sublist_of` data_texts html.
Proof.
  unfold from_project_index_html. simpl.
  destruct (index_feed_sublist html SimpleIndexHTMLParser.__init__)
    as (l & -> & Hl).
  done.
Qed.

(** X11. A page without a start tag [a] has no project, whatever its text and
    its other tags are, end tags [a] included. *)
Theorem index_without_anchor (html : list html_event) :
  Forall (fun ev => forall attrs_list, ev <> StartTag "a" attrs_list) html ->
  from_project_index_html html
  = {| index_api_version := "1.0"; projects := [] |}.
Proof.
  intros Hhtml. unfold from_project_index_html, SimpleIndexHTMLParser.__init__.
  by rewrite index_feed_outside.
Qed.

Lemma index_without_anchor_witness :
  let html := [StartTag "h1" []; Data "Simple index"; EndTag "h1";
               EndTag "a"; Data "numpy"] in
  Forall (fun ev => forall attrs_list, ev <> StartTag "a" attrs_list) html /\
  from_project_index_html html
  = {| index_api_version := "1.0"; projects := [] |}.
Proof.
  intros html.
  assert (Hhtml : Forall (fun ev => forall attrs_list,
                            ev <> StartTag "a" attrs_list) html)
    by (repeat constructor; discriminate).
  split; [exact Hhtml |].
  exact (index_without_anchor html Hhtml).
Defined.

(** X12. The index parser does not look at attributes: a page and the same
    page with every attribute removed have the same index. *)
Theorem index_ignores_attributes (html : list html_event) :
  from_project_index_html (without_attrs <$> html)
  = from_project_index_html html.
Proof.
  unfold from_project_index_html. f_equal. f_equal.
  generalize SimpleIndexHTMLParser.__init__.
  induction html as [|ev html IH]; intros st; [done |].
  simpl. rewrite index_handle_without_attrs. apply IH.
Qed.

(** X13. An anchor, with any attributes, whose content has no anchor tag:
    every text in it is a project of its own, in order, whatever tags
    separate the texts; the projects of the page are those of what is
    before the anchor, then these, then those of what is after it. *)
Theorem index_anchor_text_chunks
    (html1 body html2 : list html_event)
    (attrs_list : list (string * option string)) :
  Forall (fun ev => is_anchor_tag ev = false) body ->
  projects (from_project_index_html
              (html1 ++ StartTag "a" attrs_list :: body ++ EndTag "a" :: html2))
  = projects (from_project_index_html html1)
    ++ data_texts body
    ++ projects (from_project_index_html html2).
Proof.
  intros Hbody. unfold from_project_index_html. simpl.
  rewrite index_feed_app.
  destruct (SimpleIndexHTMLParser.feed SimpleIndexHTMLParser.__init__ html1)
    as [b ns].
  simpl SimpleIndexHTMLParser.feed.
  change (SimpleIndexHTMLParser.handle_starttag _ "a" attrs_list)
    with {| SimpleIndexHTMLParser._parsing_anchor := true;
            SimpleIndexHTMLParser.names := ns |}.
  fold (SimpleIndexHTMLParser.feed
          {| SimpleIndexHTMLParser._parsing_anchor := true;
             SimpleIndexHTMLParser.names := ns |}
          (body ++ EndTag "a" :: html2)).
  rewrite index_feed_app, index_feed_inside by done.
  simpl SimpleIndexHTMLParser.feed.
  change (SimpleIndexHTMLParser.handle_endtag _ "a")
    with {| SimpleIndexHTMLParser._parsing_anchor := false;
            SimpleIndexHTMLParser.names := ns ++ data_texts body |}.
  fold (SimpleIndexHTMLParser.feed
          {| SimpleIndexHTMLParser._parsing_anchor := false;
             SimpleIndexHTMLParser.names := ns ++ data_texts body |} html2).
  rewrite index_feed_names. simpl. by rewrite <- app_assoc.
Qed.

Lemma index_anchor_text_chunks_witness :
  let body := [Data "Holy"; StartTag "b" []; Data "Grail"; EndTag "b"] in
  Forall (fun ev => is_anchor_tag ev = false) body /\
  projects (from_project_index_html
              ([Data "Index"]
               ++ StartTag "a" [("href", Some "/holy-grail/")]
               :: body ++ EndTag "a" :: [Data "end"]))
  = ["Holy"; "Grail"].
Proof.
  intros body.
  assert (Hbody : Forall (fun ev => is_anchor_tag ev = false) body)
    by (repeat constructor).
  split; [exact Hbody |].
  exact (index_anchor_text_chunks [Data "Index"] body [Data "end"]
           [("href", Some "/holy-grail/")] Hbody).
Defined.

(** X14. Parsing two pieces of an index page one after the other: when the
    first piece does not end inside an anchor, the projects of the page
    are those of the first piece followed by those of the second. *)
Theorem index_of_concatenation (html1 html2 : list html_event) :
  SimpleIndexHTMLParser._parsing_anchor
    (SimpleIndexHTMLParser.feed SimpleIndexHTMLParser.__init__ html1) = false ->
  projects (from_project_index_html (html1 ++ html2))
  = projects (from_project_index_html html1)
    ++ projects (from_project_index_html html2).
Proof.
  intros Hflag. unfold from_project_index_html. simpl.
  rewrite index_feed_app, index_feed_names. simpl. by rewrite Hflag.
Qed.

Lemma index_of_concatenation_witness :
  SimpleIndexHTMLParser._parsing_anchor
    (SimpleIndexHTMLParser.feed SimpleIndexHTMLParser.__init__
       [StartTag "a" []; Data "numpy"; EndTag "a"]) = false /\
  projects (from_project_index_html
              ([StartTag "a" []; Data "numpy"; EndTag "a"]
               ++ [StartTag "a" []; Data "scipy"; EndTag "a"]))
  = ["numpy"; "scipy"].
Proof.
  split; [reflexivity |].
  apply (index_of_concatenation
           [StartTag "a" []; Data "numpy"; EndTag "a"]
           [StartTag "a" []; Data "scipy"; EndTag "a"]).
  reflexivity.
Defined.

(** ** Project URLs and canonical names, further *)

Lemma append_inv_head (s t u : string) : s +:+ t = s +:+ u -> t = u.
Proof.
  induction s as [|c s IH]; [done |].
  rewrite !append_cons. intros [= Heq]. by apply IH.
Qed.

(** X15. Two project names have the same URL under a base exactly when they
    have the same canonical name. *)
Theorem same_url_iff_same_canonical_name `{PyStdlib}
    (base_url n1 n2 : string) :
  create_project_url base_url n1 = create_project_url base_url n2
  <-> canonicalize_name n1 = canonicalize_name n2.
Proof.
  unfold create_project_url. split; [|by intros ->].
  intros Heq. apply append_inv_head in Heq. by apply append_inv_tail in Heq.
Qed.

(** X16. A base URL may be given with or without its final ["/"]: the project
    URL is the same. *)
Theorem create_project_url_trailing_slash `{PyStdlib}
    (base_url project_name : string) :
  base_url <> "" ->
  PyStr.endswith "/" base_url = false ->
  create_project_url (base_url +:+ "/") project_name
  = create_project_url base_url project_name.
Proof.
  intros Hne Hend. unfold create_project_url.
  apply truthy_true in Hne. rewrite Hne, Hend, endswith_append_char.
  assert (Ht : PyStr.truthy (base_url +:+ "/") = true)
    by by destruct base_url.
  by rewrite Ht.
Qed.

Lemma create_project_url_trailing_slash_witness :
  "https://example.com/simple" <> "" /\
  PyStr.endswith "/" "https://example.com/simple" = false /\
  @create_project_url basic_stdlib ("https://example.com/simple" +:+ "/") "A"
  = @create_project_url basic_stdlib "https://example.com/simple" "A".
Proof.
  split; [discriminate |]. split; [reflexivity |].
  apply (@create_project_url_trailing_slash basic_stdlib
           "https://example.com/simple" "A");
    [discriminate | reflexivity].
Defined.





(** ** Presence of the optional parts of a record *)

(** X18. ["gpg-sig"], ["yanked"] and ["dist-info-metadata"] are in the record
    of an accepted anchor exactly when the anchor has the attribute they
    come from, with a value, with an empty value or without a value. *)
Theorem optional_fields_presence `{PyStdlib}
    (name : string) (html : list html_event) (d : ProjectDetails_1_0)
    (i : nat) (attrs : gmap string (option string)) (href : string) :
  from_project_details_html name html = Ok d ->
  accepted_anchors html !! i = Some (attrs, href) ->
  exists f,
    files d !! i = Some f /\
    (is_Some (gpg_sig f) <-> is_Some (attrs !! "data-gpg-sig")) /\
    (is_Some (yanked f) <-> is_Some (attrs !! "data-yanked")) /\
    (is_Some (dist_info_metadata f)
     <-> is_Some (attrs !! "data-dist-info-metadata")).
Proof.
  intros Hd Hi.
  destruct (file_of_anchor _ _ _ _ _ _ Hd Hi) as (al & Hal & Hf).
  apply archive_link_of_inv in Hal
    as (p & _ & _ & _ & _ & _ & Hg & Hy & Hm).
  exists (file_details al). split; [done |]. simpl.
  rewrite Hg, Hy, Hm, !fmap_is_Some. done.
Qed.

Lemma optional_fields_presence_witness :
  @from_project_details_html basic_stdlib "Foo_Bar" Sample.html
  = Ok Sample.details /\
  accepted_anchors Sample.html !! 0
  = Some (dict Sample.attrs_list, Sample.href) /\
  exists f,
    files Sample.details !! 0 = Some f /\
    (is_Some (gpg_sig f)
     <-> is_Some (dict Sample.attrs_list !! "data-gpg-sig")) /\
    (is_Some (yanked f)
     <-> is_Some (dict Sample.attrs_list !! "data-yanked")) /\
    (is_Some (dist_info_metadata f)
     <-> is_Some (dict Sample.attrs_list !! "data-dist-info-metadata")).
Proof.
  split; [reflexivity |]. split; [reflexivity |].
  apply (@optional_fields_presence basic_stdlib "Foo_Bar" Sample.html
           Sample.details 0 (dict Sample.attrs_list) Sample.href);
    reflexivity.
Defined.

(** X19. A record has a hash exactly when the [href] of its anchor has a
    fragment that is not empty: then ["hashes"] has one entry, and
    otherwise none. *)
Theorem hashes_present_iff_fragment `{PyStdlib}
    (name : string) (html : list html_event) (d : ProjectDetails_1_0)
    (i : nat) (attrs : gmap string (option string)) (href : string)
    (p : UrlParse.ParseResult) :
  from_project_details_html name html = Ok d ->
  accepted_anchors html !! i = Some (attrs, href) ->
  UrlParse.urlparse href = Ok p ->
  exists f,
    files d !! i = Some f /\
    (UrlParse.fragment p <> "" -> size (hashes f) = 1) /\
    (UrlParse.fragment p = "" -> size (hashes f) = 0).
Proof.
  intros Hd Hi Hp.
  destruct (file_of_anchor _ _ _ _ _ _ Hd Hi) as (al & Hal & Hf).
  apply archive_link_of_inv in Hal as (p' & Hp' & _ & _ & Hh & _).
  rewrite Hp in Hp'. injection Hp' as <-.
  exists (file_details al). split; [done |]. simpl. split.
  - intros Hne%truthy_true. rewrite Hne in Hh.
    destruct (PyStr.split1 "=" (UrlParse.fragment p))
      as [|a [|b [|? ?]]]; try done.
    rewrite Hh. apply map_size_singleton.
  - intros Hempty. rewrite Hempty in Hh. simpl in Hh. rewrite Hh.
    apply map_size_empty.
Qed.

Lemma hashes_present_iff_fragment_witness :
  @from_project_details_html basic_stdlib "Foo_Bar" Sample.html
  = Ok Sample.details /\
  accepted_anchors Sample.html !! 0
  = Some (dict Sample.attrs_list, Sample.href) /\
  @UrlParse.urlparse basic_stdlib Sample.href = Ok Sample.parsed_href /\
  exists f,
    files Sample.details !! 0 = Some f /\
    (UrlParse.fragment Sample.parsed_href <> "" -> size (hashes f) = 1) /\
    (UrlParse.fragment Sample.parsed_href = "" -> size (hashes f) = 0).
Proof.
  split; [reflexivity |]. split; [reflexivity |]. split; [reflexivity |].
  apply (@hashes_present_iff_fragment basic_stdlib "Foo_Bar" Sample.html
           Sample.details 0 (dict Sample.attrs_list) Sample.href
           Sample.parsed_href);
    reflexivity.
Defined.

(** ** Nested anchors *)

(** X20. The index parser keeps a flag, not a count: an end tag [a] closes
    every anchor that is open, so that the text after it is dropped until
    the next start tag [a], however many anchors were opened before. *)
Theorem index_end_tag_closes (html1 html2 : list html_event) :
  Forall (fun ev => forall attrs_list, ev <> StartTag "a" attrs_list) html2 ->
  projects (from_project_index_html (html1 ++ EndTag "a" :: html2))
  = projects (from_project_index_html html1).
Proof.
  intros Hhtml2. unfold from_project_index_html. simpl.
  rewrite index_feed_app.
  destruct (SimpleIndexHTMLParser.feed SimpleIndexHTMLParser.__init__ html1)
    as [b ns].
  simpl SimpleIndexHTMLParser.feed.
  change (SimpleIndexHTMLParser.handle_endtag _ "a")
    with {| SimpleIndexHTMLParser._parsing_anchor := false;
            SimpleIndexHTMLParser.names := ns |}.
  fold (SimpleIndexHTMLParser.feed
          {| SimpleIndexHTMLParser._parsing_anchor := false;
             SimpleIndexHTMLParser.names := ns |} html2).
  by rewrite index_feed_outside.
Qed.

Lemma index_end_tag_closes_witness :
  let html1 := [StartTag "a" []; Data "outer"; StartTag "a" []; Data "inner"] in
  let html2 := [Data "rest of outer"; EndTag "a"; Data "after"] in
  Forall (fun ev => forall attrs_list, ev <> StartTag "a" attrs_list) html2 /\
  projects (from_project_index_html (html1 ++ EndTag "a" :: html2))
  = ["outer"; "inner"].
Proof.
  intros html1 html2.
  assert (Hhtml2 : Forall (fun ev => forall attrs_list,
                             ev <> StartTag "a" attrs_list) html2)
    by (repeat constructor; discriminate).
  split; [exact Hhtml2 |].
  exact (index_end_tag_closes html1 html2 Hhtml2).
Defined.
